(** * Smartbot: the post selection, scheduling and retry-dispatch engine

    A shallow embedding of [main.py].  The Python module keeps its state in
    globals ([already_sent_today], the persistence file, the wall clock, the
    random generator, the Telegram client); here that state is one record,
    [World], threaded through a state-and-exception monad [M].  Every
    function below is the translation of the Python function of the same
    name, statement by statement.

    What the model covers and what it leaves out:
    - the outcomes of [random] and of the Telegram client are read from
      oracles in the world, so a statement for every world is a statement
      for every outcome;
    - a coroutine is run on its own from its first statement to its last;
      the interleaving of the three tasks of [main] at their [await]s is not
      modelled;
    - the fields of a post are strings, and writing the persistence file
      succeeds;
    - [while True] loops are given by their first rounds. *)

From stdpp Require Import base option list gmap strings.
From Stdlib Require Import ZArith Lia.

Local Open Scope string_scope.
Local Open Scope Z_scope.

(** ** Data model *)

(** A post is a JSON object of string fields ([type], [media], [caption],
    [content]); Python compares posts by value, as does [=] on [gmap]. *)
Abbreviation Post := (gmap string string).

(** The tracker: category name to the list of posts already sent. *)
Abbreviation Tracker := (gmap string (list Post)).

(** The Python exceptions that the modelled code can raise.  All of them
    derive from [Exception], so [except Exception] catches each one. *)
Inductive Exn : Type :=
  | KeyError (key : string)
  | IndexError
  | ValueError
  | OverflowError
  | ZeroDivisionError
  | FileNotFoundError (path : string)
  | JSONDecodeError (path : string)
  | TelegramError.

(** The [logging] calls of the module, one constructor per call site. *)
Inductive LogMsg : Type :=
  | LoadingData (file_path : string)
  | SavingSentPosts
  | SendingPost (type channel_id : string)
  | PostSent
  | ErrorRetrying (e : Exn) (delay : Z)
  | FailedAfterRetries (e : Exn)
  | NotEnoughAvailable (post_type : string)
  | SchedulingPosts (num_posts : Z) (post_type : string)
  | SchedulingPost (number num_posts : Z)
  | StartingDailySchedule.

(** What an observer of the process sees, in order. *)
Inductive Event : Type :=
  | EvInfo (m : LogMsg)
  | EvError (m : LogMsg)
  | EvSleep (seconds : Z)
  | EvSendPhoto (chat_id photo caption : string)
  | EvSendVideo (chat_id video caption : string)
  | EvSendMessage (chat_id text : string).

(** The state of the process and of its surroundings.
    - [files]: the content files; an absent key is a missing file, [None] a
      file that is not valid JSON;
    - [already_sent_today]: the global dictionary of the module;
    - [persistence_file]: what [already_sent.json] holds, if written;
    - [clock]: the wall clock, in seconds since 0001-01-01 00:00:00;
    - [rng], [rng_pos]: the draws of the [random] module and how many of
      them were consumed;
    - [api_ok], [api_calls]: whether the n-th call of the Telegram client
      succeeds, and how many calls were made;
    - [trace]: the events so far, oldest first. *)
Record World : Type := mkWorld {
  files : gmap string (option (list Post));
  already_sent_today : Tracker;
  persistence_file : option Tracker;
  CHANNEL_ID : string;
  clock : Z;
  rng : nat → nat;
  rng_pos : nat;
  api_ok : nat → bool;
  api_calls : nat;
  trace : list Event
}.

Definition set_sent (t : Tracker) (w : World) : World :=
  mkWorld (files w) t (persistence_file w) (CHANNEL_ID w) (clock w)
          (rng w) (rng_pos w) (api_ok w) (api_calls w) (trace w).

Definition set_persistence (p : option Tracker) (w : World) : World :=
  mkWorld (files w) (already_sent_today w) p (CHANNEL_ID w) (clock w)
          (rng w) (rng_pos w) (api_ok w) (api_calls w) (trace w).

Definition set_clock (c : Z) (w : World) : World :=
  mkWorld (files w) (already_sent_today w) (persistence_file w) (CHANNEL_ID w) c
          (rng w) (rng_pos w) (api_ok w) (api_calls w) (trace w).

Definition set_rng_pos (n : nat) (w : World) : World :=
  mkWorld (files w) (already_sent_today w) (persistence_file w) (CHANNEL_ID w)
          (clock w) (rng w) n (api_ok w) (api_calls w) (trace w).

Definition set_api_calls (n : nat) (w : World) : World :=
  mkWorld (files w) (already_sent_today w) (persistence_file w) (CHANNEL_ID w)
          (clock w) (rng w) (rng_pos w) (api_ok w) n (trace w).

Definition set_trace (t : list Event) (w : World) : World :=
  mkWorld (files w) (already_sent_today w) (persistence_file w) (CHANNEL_ID w)
          (clock w) (rng w) (rng_pos w) (api_ok w) (api_calls w) t.

(** ** The monad: state passing with exceptions *)

Inductive Result (A : Type) : Type :=
  | Ok (a : A)
  | Raise (e : Exn).
Arguments Ok {A} a.
Arguments Raise {A} e.

Definition M (A : Type) : Type := World → Result A * World.

Definition ret {A} (a : A) : M A := λ w, (Ok a, w).

Definition raise {A} (e : Exn) : M A := λ w, (Raise e, w).

Definition bind {A B} (c : M A) (k : A → M B) : M B :=
  λ w, match c w with
       | (Ok a, w') => k a w'
       | (Raise e, w') => (Raise e, w')
       end.

(** [try: c except Exception as e: h e] *)
Definition try_except {A} (c : M A) (h : Exn → M A) : M A :=
  λ w, match c w with
       | (Ok a, w') => (Ok a, w')
       | (Raise e, w') => h e w'
       end.

Notation "x <~ c ;; k" := (bind c (λ x, k))
  (at level 100, c at next level, right associativity).
Notation "c ;; k" := (bind c (λ _, k))
  (at level 100, right associativity).

Definition get {A} (f : World → A) : M A := λ w, (Ok (f w), w).
Definition modify (f : World → World) : M unit := λ w, (Ok tt, f w).

Definition emit (e : Event) : M unit := modify (λ w, set_trace (trace w ++ [e]) w).
Definition logging_info (m : LogMsg) : M unit := emit (EvInfo m).
Definition logging_error (m : LogMsg) : M unit := emit (EvError m).

(** [await asyncio.sleep(d)]: the clock moves on by [d] seconds (a delay
    that is not positive returns at once). *)
Definition asyncio_sleep (d : Z) : M unit :=
  emit (EvSleep d) ;; modify (λ w, set_clock (clock w + Z.max 0 d) w).

(** [for x in l: body x] *)
Fixpoint for_each {A} (l : list A) (body : A → M unit) : M unit :=
  match l with
  | [] => ret tt
  | x :: l' => body x ;; for_each l' body
  end.

(** [[f x for x in l]] *)
Fixpoint comprehension {A B} (l : list A) (f : A → M B) : M (list B) :=
  match l with
  | [] => ret []
  | x :: l' => y <~ f x ;; ys <~ comprehension l' f ;; ret (y :: ys)
  end.

(** [[x for x in l if cond x]] *)
Fixpoint comprehension_if {A} (l : list A) (cond : A → M bool) : M (list A) :=
  match l with
  | [] => ret []
  | x :: l' =>
      b <~ cond x ;; ys <~ comprehension_if l' cond ;;
      ret (if b then x :: ys else ys)
  end.

(** ** The [datetime] operations used by [get_time_intervals] *)

(** A [datetime] is its number of seconds since 0001-01-01 00:00:00; the
    type holds the years 1 to 9999 ([date.max.toordinal() = 3652059]). *)
Definition DATETIME_END : Z := 3652059 * 86400.

Definition datetime_valid (t : Z) : bool := (0 <=? t) && (t <? DATETIME_END).

(** [datetime.now()] *)
Definition datetime_now : M Z :=
  t <~ get clock ;;
  if datetime_valid t then ret t else raise ValueError.

(** [t.replace(hour=h, minute=0, second=0, microsecond=0)]: the constructor
    rejects an hour outside 0..23. *)
Definition datetime_replace_hour (t h : Z) : M Z :=
  if (0 <=? h) && (h <=? 23) then ret ((t `div` 86400) * 86400 + h * 3600)
  else raise ValueError.

(** [t + timedelta(minutes=m)]: a [timedelta] holds at most 999999999 days
    either way, and the sum has to be a [datetime] again. *)
Definition datetime_add_minutes (t m : Z) : M Z :=
  if ((m * 60) `div` 86400 <? -999999999) || (999999999 <? (m * 60) `div` 86400)
  then raise OverflowError
  else if datetime_valid (t + m * 60) then ret (t + m * 60)
       else raise OverflowError.

Definition digit (d : Z) : Ascii.ascii := Ascii.ascii_of_N (48 + Z.to_N d).

Definition two_digits (n : Z) : string :=
  String (digit (n `div` 10)) (String (digit (n `mod` 10)) EmptyString).

(** [t.strftime("%H:%M")] *)
Definition strftime_HM (t : Z) : string :=
  two_digits ((t `div` 3600) `mod` 24) +:+ ":" +:+ two_digits ((t `div` 60) `mod` 60).

(** [a // b] on Python integers: floor division, an error for [b = 0]. *)
Definition floordiv (a b : Z) : M Z :=
  if b =? 0 then raise ZeroDivisionError else ret (a `div` b).

(** ** [get_time_intervals] *)

Definition get_time_intervals (start_hour end_hour num_posts : Z) : M (list string) :=
  let total_minutes := (end_hour - start_hour) * 60 in
  interval_minutes <~ floordiv total_minutes num_posts ;;
  comprehension (seqZ 0 num_posts) (λ i,
    now <~ datetime_now ;;
    base <~ datetime_replace_hour now start_hour ;;
    t <~ datetime_add_minutes base (i * interval_minutes) ;;
    ret (strftime_HM t)).

(** ** Files *)

(** [load_data(file_path)]: [open] fails on a missing file, [json.load] on
    a malformed one. *)
Definition load_data (file_path : string) : M (list Post) :=
  logging_info (LoadingData file_path) ;;
  fs <~ get files ;;
  match fs !! file_path with
  | None => raise (FileNotFoundError file_path)
  | Some None => raise (JSONDecodeError file_path)
  | Some (Some data) => ret data
  end.

(** [save_sent_data()]: the whole tracker overwrites the persistence file
    (the write itself is taken to succeed). *)
Definition save_sent_data : M unit :=
  logging_info SavingSentPosts ;;
  modify (λ w, set_persistence (Some (already_sent_today w)) w).

(** [already_sent_today[key]] *)
Definition tracker_get (key : string) : M (list Post) :=
  t <~ get already_sent_today ;;
  match t !! key with
  | Some l => ret l
  | None => raise (KeyError key)
  end.

(** [already_sent_today[key] = l] *)
Definition tracker_set (key : string) (l : list Post) : M unit :=
  modify (λ w, set_sent (<[key := l]> (already_sent_today w)) w).

(** ** The [random] module *)

(** One draw below [n], taken from the generator. *)
Definition randbelow (n : nat) : M nat :=
  r <~ get (λ w, rng w (rng_pos w)) ;;
  modify (λ w, set_rng_pos (S (rng_pos w)) w) ;;
  ret (r mod n)%nat.

(** [random.choice(seq)]: [IndexError] on an empty sequence. *)
Definition random_choice {A} (l : list A) : M A :=
  match l with
  | [] => raise IndexError
  | _ =>
      j <~ randbelow (length l) ;;
      match l !! j with
      | Some x => ret x
      | None => raise IndexError
      end
  end.

(** The draws of [random.sample]: [k] times, one position of what is left
    of the population is drawn and taken out. *)
Fixpoint sample_draw {A} (k : nat) (pool : list A) : M (list A) :=
  match k with
  | O => ret []
  | S k' =>
      j <~ randbelow (length pool) ;;
      match pool !! j with
      | Some x => rest <~ sample_draw k' (delete j pool) ;; ret (x :: rest)
      | None => raise ValueError
      end
  end.

(** [random.sample(population, k)]: [ValueError] unless [0 <= k <= len]. *)
Definition random_sample {A} (population : list A) (k : Z) : M (list A) :=
  if (0 <=? k) && (k <=? Z.of_nat (length population))
  then sample_draw (Z.to_nat k) population
  else raise ValueError.

(** ** [send_post] *)

(** [post[key]] *)
Definition post_item (post : Post) (key : string) : M string :=
  match post !! key with
  | Some v => ret v
  | None => raise (KeyError key)
  end.

(** [post.get(key, default)] *)
Definition post_get (post : Post) (key default : string) : string :=
  match post !! key with
  | Some v => v
  | None => default
  end.

(** One call of the Telegram client: it is made, and succeeds or raises. *)
Definition api_call (request : Event) : M unit :=
  emit request ;;
  n <~ get api_calls ;;
  modify (set_api_calls (S n)) ;;
  ok <~ get (λ w, api_ok w n) ;;
  if ok then ret tt else raise TelegramError.

(** The body of the [try] block of [send_post]. *)
Definition send_post_try (post : Post) (channel_id : string) : M unit :=
  type <~ post_item post "type" ;;
  logging_info (SendingPost type channel_id) ;;
  (if bool_decide (type = "image") then
     photo <~ post_item post "media" ;;
     api_call (EvSendPhoto channel_id photo (post_get post "caption" ""))
   else if bool_decide (type = "video") then
     video <~ post_item post "media" ;;
     api_call (EvSendVideo channel_id video (post_get post "caption" ""))
   else if bool_decide (type = "text") then
     text <~ post_item post "content" ;;
     api_call (EvSendMessage channel_id text)
   else ret tt) ;;
  logging_info PostSent.

(** [send_post], by recursion on the retries that are left: the Python code
    only tests [retries > 0] and passes [retries - 1] on. *)
Fixpoint send_post_rec (retries : nat) (post : Post) (channel_id : string)
    (delay : Z) : M unit :=
  try_except (send_post_try post channel_id) (λ e,
    match retries with
    | S retries' =>
        logging_error (ErrorRetrying e delay) ;;
        asyncio_sleep delay ;;
        send_post_rec retries' post channel_id (delay * 2)
    | O => logging_error (FailedAfterRetries e)
    end).

Definition send_post (post : Post) (channel_id : string) (retries delay : Z) : M unit :=
  send_post_rec (Z.to_nat retries) post channel_id delay.

(** The defaults [retries=3, delay=5]. *)
Definition send_post_default (post : Post) (channel_id : string) : M unit :=
  send_post post channel_id 3 5.

(** ** [get_random_posts] *)

Definition get_random_posts (file_path : string) (num_posts : Z)
    (post_type : string) : M (list Post) :=
  data <~ load_data file_path ;;
  available_posts <~ comprehension_if data (λ post,
    sent <~ tracker_get post_type ;; ret (bool_decide (post ∉ sent))) ;;
  available_posts <~
    (if Z.of_nat (length available_posts) <? num_posts then
       logging_info (NotEnoughAvailable post_type) ;;
       tracker_set post_type [] ;;
       ret data
     else ret available_posts) ;;
  selected_posts <~ random_sample available_posts
    (Z.min num_posts (Z.of_nat (length available_posts))) ;;
  sent <~ tracker_get post_type ;;
  tracker_set post_type (sent ++ selected_posts) ;;
  save_sent_data ;;
  ret selected_posts.

(** ** [schedule_post] and the posting loops *)

(** [enumerate(l)], counting from [i]. *)
Fixpoint enumerate_from {A} (i : Z) (l : list A) : list (Z * A) :=
  match l with
  | [] => []
  | x :: l' => (i, x) :: enumerate_from (i + 1) l'
  end.

(** The body of the [for idx, post in enumerate(posts)] loop. *)
Definition schedule_post_step (num_posts : Z) (entry : Z * Post) : M unit :=
  let '(idx, post) := entry in
  logging_info (SchedulingPost (idx + 1) num_posts) ;;
  asyncio_sleep (idx * 1800) ;;
  channel_id <~ get CHANNEL_ID ;;
  send_post_default post channel_id.

Definition schedule_post (post_type json_file : string) (num_posts : Z) : M unit :=
  logging_info (SchedulingPosts num_posts post_type) ;;
  posts <~ get_random_posts json_file num_posts post_type ;;
  intervals <~ get_time_intervals 8 20 num_posts ;;
  for_each (enumerate_from 0 posts) (schedule_post_step num_posts).

Definition schedule_forex_posts : M unit :=
  schedule_post "forex" "forex_data.json" 5.

Definition schedule_motivation_posts : M unit :=
  schedule_post "motivation" "motivation_data.json" 5.

Definition morning_post : M unit :=
  data <~ load_data "morning_data.json" ;;
  candidates <~ comprehension_if data (λ p,
    sent <~ tracker_get "morning" ;; ret (bool_decide (p ∉ sent))) ;;
  post <~ random_choice candidates ;;
  tracker_set "morning" [post] ;;
  channel_id <~ get CHANNEL_ID ;;
  send_post_default post channel_id ;;
  save_sent_data.

Definition weekend_post : M unit :=
  data <~ load_data "weekend_data.json" ;;
  candidates <~ comprehension_if data (λ p,
    sent <~ tracker_get "weekend" ;; ret (bool_decide (p ∉ sent))) ;;
  post <~ random_choice candidates ;;
  tracker_set "weekend" [post] ;;
  channel_id <~ get CHANNEL_ID ;;
  send_post_default post channel_id ;;
  save_sent_data.

(** [while True: body], its first [iterations] rounds.  The loop has no
    exit: [Ok] says that it is still running after that many rounds,
    [Raise] that an exception ended it. *)
Fixpoint while_true (iterations : nat) (body : M unit) : M unit :=
  match iterations with
  | O => ret tt
  | S n => body ;; while_true n body
  end.

Definition schedule_all_posts (iterations : nat) : M unit :=
  while_true iterations (
    logging_info StartingDailySchedule ;;
    schedule_forex_posts ;;
    schedule_motivation_posts ;;
    asyncio_sleep (24 * 3600)).

(** ** Observations on traces *)

(** The delays slept, in order. *)
Fixpoint sleeps (evs : list Event) : list Z :=
  match evs with
  | [] => []
  | EvSleep d :: evs' => d :: sleeps evs'
  | _ :: evs' => sleeps evs'
  end.

Definition is_request (ev : Event) : bool :=
  match ev with
  | EvSendPhoto _ _ _ | EvSendVideo _ _ _ | EvSendMessage _ _ => true
  | _ => false
  end.

(** The requests made to the Telegram client. *)
Fixpoint requests (evs : list Event) : list Event :=
  match evs with
  | [] => []
  | ev :: evs' => if is_request ev then ev :: requests evs' else requests evs'
  end.

(** The retries announced, with the delay of each. *)
Fixpoint retries_logged (evs : list Event) : list Z :=
  match evs with
  | [] => []
  | EvError (ErrorRetrying _ d) :: evs' => d :: retries_logged evs'
  | _ :: evs' => retries_logged evs'
  end.

(** The time spent asleep. *)
Definition slept (evs : list Event) : Z :=
  foldr (λ d acc, Z.max 0 d + acc) 0 (sleeps evs).

(** The delays of [r] retries that start at [d] and double each time. *)
Fixpoint backoff (r : nat) (d : Z) : list Z :=
  match r with
  | O => []
  | S r' => d :: backoff r' (d * 2)
  end.

(** What a dispatch may do to the world: it adds the events [evs] to the
    trace, one client call per request among them, and the time it slept;
    the files, the tracker, its persisted copy and the generator stay. *)
Record dispatched (w : World) (evs : list Event) (w' : World) : Prop := {
  dispatched_files : files w' = files w;
  dispatched_sent : already_sent_today w' = already_sent_today w;
  dispatched_persistence : persistence_file w' = persistence_file w;
  dispatched_channel : CHANNEL_ID w' = CHANNEL_ID w;
  dispatched_rng : rng w' = rng w;
  dispatched_rng_pos : rng_pos w' = rng_pos w;
  dispatched_api_ok : api_ok w' = api_ok w;
  dispatched_trace : trace w' = (trace w ++ evs)%list;
  dispatched_api_calls : api_calls w' = (api_calls w + length (requests evs))%nat;
  dispatched_clock : clock w' = clock w + slept evs
}.

(** What a selection leaves alone: the files, the clock and the client;
    it logs, but neither sleeps nor sends. *)
Record selected (w : World) (evs : list Event) (w' : World) : Prop := {
  selected_files : files w' = files w;
  selected_channel : CHANNEL_ID w' = CHANNEL_ID w;
  selected_clock : clock w' = clock w;
  selected_rng : rng w' = rng w;
  selected_api_ok : api_ok w' = api_ok w;
  selected_api_calls : api_calls w' = api_calls w;
  selected_trace : trace w' = (trace w ++ evs)%list;
  selected_requests : requests evs = [];
  selected_sleeps : sleeps evs = []
}.

(** A post that reaches the Telegram client: a known type with the field
    that its request reads. *)
Definition sendable (post : Post) : bool :=
  match post !! "type" with
  | None => false
  | Some type =>
      if bool_decide (type = "image") || bool_decide (type = "video")
      then bool_decide (is_Some (post !! "media"))
      else bool_decide (type = "text") && bool_decide (is_Some (post !! "content"))
  end.

(** The events of one attempt: no sleep, no retry, at most one request,
    and exactly one for a sendable post. *)
Definition attempt_events (post : Post) (evs : list Event) : Prop :=
  sleeps evs = [] ∧ retries_logged evs = [] ∧
  (length (requests evs) ≤ 1)%nat ∧
  (sendable post = true → length (requests evs) = 1%nat).

(** The send of [post] fails on every attempt: whenever the [try] block of
    [send_post] runs against the client of [w], it raises. *)
Definition fails_every_attempt (post : Post) (channel_id : string) (w : World) : Prop :=
  ∀ w', (∀ n, api_ok w' n = api_ok w n) →
        ∃ e w'', send_post_try post channel_id w' = (Raise e, w'').

(** [HH:MM] of a number of minutes since midnight of some day. *)
Definition hhmm (minutes : Z) : string :=
  two_digits ((minutes `div` 60) `mod` 24) +:+ ":" +:+ two_digits (minutes `mod` 60).

(** Midnight of the current day. *)
Definition midnight (w : World) : Z := (clock w `div` 86400) * 86400.

(** One element of the comprehension of [get_time_intervals], as a
    function of the minutes added to the start hour. *)
Definition time_point (start_hour minutes : Z) : M string :=
  now <~ datetime_now ;;
  base <~ datetime_replace_hour now start_hour ;;
  t <~ datetime_add_minutes base minutes ;;
  ret (strftime_HM t).

(** The comprehension of [get_random_posts], [morning_post] and
    [weekend_post]: the posts of [data] that are not in the sent list of
    [key]. *)
Definition unsent (key : string) (data : list Post) : M (list Post) :=
  comprehension_if data (λ post,
    sent <~ tracker_get key ;; ret (bool_decide (post ∉ sent))).

(** [morning_post] and [weekend_post] are one body on two categories. *)
Definition single_post (category data_file : string) : M unit :=
  data <~ load_data data_file ;;
  candidates <~ comprehension_if data (λ p,
    sent <~ tracker_get category ;; ret (bool_decide (p ∉ sent))) ;;
  post <~ random_choice candidates ;;
  tracker_set category [post] ;;
  channel_id <~ get CHANNEL_ID ;;
  send_post_default post channel_id ;;
  save_sent_data.

(** What "replaces rather than appends" says of a posting function [c] on
    [category]: a run that raises leaves the tracker as it was; a run that
    returns chose a post of the data file that was not in the sent list,
    and the sent list of the category is now that one post. *)
Definition replaces_sent (category data_file : string) (c : M unit) : Prop :=
  ∀ w r w', c w = (r, w') →
    (∃ e, r = Raise e ∧ already_sent_today w' = already_sent_today w) ∨
    (∃ data post,
       r = Ok tt ∧
       files w !! data_file = Some (Some data) ∧
       post ∈ data ∧ (post ∉ already_sent_today w !!! category) ∧
       already_sent_today w' !! category = Some [post] ∧
       already_sent_today w' = <[category := [post]]> (already_sent_today w)).

(** The world in which [morning_post] or [weekend_post] dispatches [post]:
    the file was read, one draw was made, and the sent list of the
    category is already [[post]]. *)
Definition chosen (category data_file : string) (post : Post) (w : World) : World :=
  set_sent (<[category := [post]]> (already_sent_today w))
    (set_rng_pos (S (rng_pos w))
       (set_trace (trace w ++ [EvInfo (LoadingData data_file)]) w)).


(** ** Concrete worlds used in the examples *)

Definition text_post (s : string) : Post := {[ "type" := "text"; "content" := s ]}.

(** 2024-ish afternoon, nothing on disk, a client that always fails. *)
Definition world0 : World :=
  mkWorld ∅ ∅ None "@channel" (739000 * 86400 + 50000) (λ n, n) 0 (λ _, false) 0 [].

(** Three forex posts on disk, the first of them sent already, a client
    that is up. *)
Definition world1 : World :=
  mkWorld {[ "forex_data.json" := Some [text_post "a"; text_post "b"; text_post "c"] ]}
          {[ "forex" := [text_post "a"] ]}
          None "@channel" (739000 * 86400 + 50000) (λ n, n) 0 (λ _, true) 0 [].

(** Two morning posts and two weekend posts on disk; the morning list
    holds three posts and the weekend list one, a client that is up. *)
Definition world2 : World :=
  mkWorld {[ "morning_data.json" := Some [text_post "a"; text_post "b"];
             "weekend_data.json" := Some [text_post "x"; text_post "y"] ]}
          {[ "morning" := [text_post "a"; text_post "old"; text_post "older"];
             "weekend" := [text_post "x"] ]}
          None "@channel" (739000 * 86400 + 50000) (λ n, n) 0 (λ _, true) 0 [].

(** The tracker as the module initialises it. *)
Definition initial_tracker : Tracker :=
  {[ "forex" := []; "motivation" := []; "morning" := []; "weekend" := [] ]}.

(** Content files that are valid JSON and hold no post. *)
Definition world3 : World :=
  mkWorld {[ "forex_data.json" := Some []; "motivation_data.json" := Some [];
             "morning_data.json" := Some []; "weekend_data.json" := Some [] ]}
          initial_tracker
          None "@channel" (739000 * 86400 + 50000) (λ n, n) 0 (λ _, true) 0 [].

(** Five forex posts on disk, none sent yet, a client that is up. *)
Definition world4 : World :=
  mkWorld {[ "forex_data.json" :=
               Some [text_post "a"; text_post "b"; text_post "c";
                     text_post "d"; text_post "e"] ]}
          initial_tracker
          None "@channel" (739000 * 86400 + 50000) (λ n, n) 0 (λ _, true) 0 [].

(** The forex file is missing; the motivation file holds five posts. *)
Definition world5 : World :=
  mkWorld {[ "motivation_data.json" :=
               Some [text_post "a"; text_post "b"; text_post "c";
                     text_post "d"; text_post "e"] ]}
          initial_tracker
          None "@channel" (739000 * 86400 + 50000) (λ n, n) 0 (λ _, true) 0 [].

(** ** The rest of the module *)

(** The request that [send_post] makes for [post], if it makes one: the
    branch of its type with the fields that the call reads. *)
Definition request_of (channel_id : string) (post : Post) : option Event :=
  match post !! "type" with
  | None => None
  | Some type =>
      if bool_decide (type = "image") then
        match post !! "media" with
        | Some photo => Some (EvSendPhoto channel_id photo (post_get post "caption" ""))
        | None => None
        end
      else if bool_decide (type = "video") then
        match post !! "media" with
        | Some video => Some (EvSendVideo channel_id video (post_get post "caption" ""))
        | None => None
        end
      else if bool_decide (type = "text") then
        match post !! "content" with
        | Some text => Some (EvSendMessage channel_id text)
        | None => None
        end
      else None
  end.

(** A post on which [send_post] raises [KeyError] before any request: no
    [type], or a known type without the field that its request reads. *)
Definition lacks_field (post : Post) : bool :=
  match post !! "type" with
  | None => true
  | Some type =>
      if bool_decide (type = "image") || bool_decide (type = "video")
      then bool_decide (post !! "media" = None)
      else bool_decide (type = "text") && bool_decide (post !! "content" = None)
  end.


(** [now.hour], [now.minute] and [now.weekday()] of a [datetime]; Monday
    is 0, and 0001-01-01 was a Monday. *)
Definition datetime_hour (t : Z) : Z := (t `div` 3600) `mod` 24.
Definition datetime_minute (t : Z) : Z := (t `div` 60) `mod` 60.
Definition datetime_weekday (t : Z) : Z := (t `div` 86400) `mod` 7.

(** The two polling loops log a line of their own.  Their log is kept
    beside the world: each line with the length of the trace at the time
    it was written, which places it among the events. *)
Inductive LoopLog : Type :=
  | SendingMorningPost
  | SendingWeekendPost.

Record LoopWorld : Type := mkLoopWorld {
  world : World;
  loop_log : list (nat * LoopLog)
}.

Definition LM (A : Type) : Type := LoopWorld → Result A * LoopWorld.

Definition loop_ret {A} (a : A) : LM A := λ lw, (Ok a, lw).

Definition loop_bind {A B} (c : LM A) (k : A → LM B) : LM B :=
  λ lw, match c lw with
        | (Ok a, lw') => k a lw'
        | (Raise e, lw') => (Raise e, lw')
        end.

(** A computation of the module, run inside a polling loop. *)
Definition lift {A} (c : M A) : LM A :=
  λ lw, let '(r, w') := c (world lw) in (r, mkLoopWorld w' (loop_log lw)).

Definition loop_info (m : LoopLog) : LM unit :=
  λ lw, (Ok tt, mkLoopWorld (world lw)
                  (loop_log lw ++ [(length (trace (world lw)), m)])).

(** One round of [start_morning_post]. *)
Definition morning_poll : LM unit :=
  loop_bind (lift datetime_now) (λ now,
  loop_bind (if (datetime_hour now =? 7) && (datetime_minute now =? 0)
             then loop_bind (loop_info SendingMorningPost) (λ _, lift morning_post)
             else loop_ret tt) (λ _,
  lift (asyncio_sleep 60))).

(** One round of [start_weekend_post]. *)
Definition weekend_poll : LM unit :=
  loop_bind (lift datetime_now) (λ now,
  loop_bind (if (datetime_weekday now =? 4) && (datetime_hour now =? 19)
                && (datetime_minute now =? 45)
             then loop_bind (loop_info SendingWeekendPost) (λ _, lift weekend_post)
             else loop_ret tt) (λ _,
  lift (asyncio_sleep 60))).

(** [while True: body] in a polling loop, its first [iterations] rounds. *)
Fixpoint loop_while_true (iterations : nat) (body : LM unit) : LM unit :=
  match iterations with
  | O => loop_ret tt
  | S n => loop_bind body (λ _, loop_while_true n body)
  end.

Definition start_morning_post (iterations : nat) : LM unit :=
  loop_while_true iterations morning_poll.

Definition start_weekend_post (iterations : nat) : LM unit :=
  loop_while_true iterations weekend_poll.

(** The seconds of the day at which a [datetime] stands. *)
Definition second_of_day (t : Z) : Z := t `mod` 86400.

(** A world at 07:00:20 of a Friday, with two morning posts and two
    weekend posts on disk and a client that is up. *)
Definition world6 : World :=
  mkWorld {[ "morning_data.json" := Some [text_post "a"; text_post "b"];
             "weekend_data.json" := Some [text_post "x"; text_post "y"] ]}
          initial_tracker
          None "@channel" (739001 * 86400 + 7 * 3600 + 20)
          (λ n, n) 0 (λ _, true) 0 [].

(** The same world at 19:45:10 of that Friday. *)
Definition world7 : World := set_clock (739001 * 86400 + 19 * 3600 + 45 * 60 + 10) world6.

(** A morning file with one post, nothing sent yet, a client that is up. *)
Definition world9 : World :=
  mkWorld {[ "morning_data.json" := Some [text_post "only"] ]}
          initial_tracker
          None "@channel" (739000 * 86400 + 50000) (λ n, n) 0 (λ _, true) 0 [].

(** Five forex posts and five motivation posts on disk, none sent yet, a
    client that is up. *)
Definition world10 : World :=
  mkWorld {[ "forex_data.json" :=
               Some [text_post "a"; text_post "b"; text_post "c";
                     text_post "d"; text_post "e"];
             "motivation_data.json" :=
               Some [text_post "p"; text_post "q"; text_post "r";
                     text_post "s"; text_post "t"] ]}
          initial_tracker
          None "@channel" (739000 * 86400 + 50000) (λ n, n) 0 (λ _, true) 0 [].



(** The minute in which [start_morning_post] posts: 07:00 of any day. *)
Definition morning_minute (t : Z) : Prop :=
  datetime_hour t = 7 ∧ datetime_minute t = 0.

(** The minute in which [start_weekend_post] posts: 19:45 of a Friday. *)
Definition weekend_minute (t : Z) : Prop :=
  datetime_weekday t = 4 ∧ datetime_hour t = 19 ∧ datetime_minute t = 45.

(** A round of a polling loop that left the tracker, its persisted copy
    and the client alone. *)
Definition poll_inert (lw lw' : LoopWorld) : Prop :=
  already_sent_today (world lw') = already_sent_today (world lw) ∧
  persistence_file (world lw') = persistence_file (world lw) ∧
  api_calls (world lw') = api_calls (world lw) ∧
  loop_log lw' = loop_log lw.

(** The shape of both rounds: read the clock, post when [cond] holds of
    it, sleep a minute. *)
Definition poll (cond : Z → bool) (m : LoopLog) (post : M unit) : LM unit :=
  loop_bind (lift datetime_now) (λ now,
  loop_bind (if cond now
             then loop_bind (loop_info m) (λ _, lift post)
             else loop_ret tt) (λ _,
  lift (asyncio_sleep 60))).

(** 07:00:20 of a Friday, with both morning posts in the sent list. *)
Definition world11 : World :=
  set_sent {[ "morning" := [text_post "a"; text_post "b"] ]} world6.

(** A client that fails its first two calls and answers from the third. *)
Definition world8 : World :=
  mkWorld ∅ ∅ None "@channel" (739000 * 86400 + 50000) (λ n, n) 0
          (λ n, bool_decide (2 ≤ n)%nat) 0 [].

(** A computation that touches no sent list but the one of [category],
    and drops no category from the tracker. *)
Definition touches_only {A} (category : string) (c : M A) : Prop :=
  ∀ w r w', c w = (r, w') →
    (∀ key, key ≠ category →
       already_sent_today w' !! key = already_sent_today w !! key) ∧
    dom (already_sent_today w) ⊆ dom (already_sent_today w').

(** A posting function [c] on [category] that never posts the same post
    twice in a row. *)
Definition never_twice_in_a_row (category : string) (c : M unit) : Prop :=
  ∀ w w1 w2, c w = (Ok tt, w1) → c w1 = (Ok tt, w2) →
    ∃ p1 p2,
      already_sent_today w1 !! category = Some [p1] ∧
      already_sent_today w2 !! category = Some [p2] ∧
      p1 ≠ p2.

(** A posting function [c] that, on a file all of whose posts are the same
    post, works once and raises [IndexError] at the next call. *)
Definition exhausted_after_one (data_file : string) (c : M unit) : Prop :=
  ∀ w w1 data p,
    files w !! data_file = Some (Some data) →
    (∀ q, q ∈ data → q = p) →
    c w = (Ok tt, w1) →
    ∃ w2, c w1 = (Raise IndexError, w2) ∧
          already_sent_today w2 = already_sent_today w1.

(** When a posting function [c] on [category] returns normally: its file
    is readable, the category is in the tracker, and some post of the file
    is not in its sent list. *)
Definition returns_iff_unsent (category data_file : string) (c : M unit) : Prop :=
  ∀ w,
    (∃ w', c w = (Ok tt, w')) ↔
    ∃ data old p,
      files w !! data_file = Some (Some data) ∧
      already_sent_today w !! category = Some old ∧
      p ∈ data ∧ p ∉ old.

(** * Proofs *)

(** ** The monad *)

(** Steps through the monad's plumbing, leaving the data alone. *)
Ltac run := cbv beta iota delta [bind ret raise get modify try_except].
Tactic Notation "run" "in" hyp(H) :=
  cbv beta iota delta [bind ret raise get modify try_except] in H.

Lemma bind_Ok {A B} (c : M A) (k : A → M B) w a w' :
  c w = (Ok a, w') → bind c k w = k a w'.
Proof. intros H. unfold bind. by rewrite H. Qed.

Lemma bind_Raise {A B} (c : M A) (k : A → M B) w e w' :
  c w = (Raise e, w') → bind c k w = (Raise e, w').
Proof. intros H. unfold bind. by rewrite H. Qed.

Lemma bind_Ok_inv {A B} (c : M A) (k : A → M B) w b w'' :
  bind c k w = (Ok b, w'') → ∃ a w', c w = (Ok a, w') ∧ k a w' = (Ok b, w'').
Proof.
  unfold bind. destruct (c w) as [[a|e] w'] eqn:E; [eauto | discriminate].
Qed.

Lemma comprehension_pure {A B} (l : list A) (f : A → M B) (g : A → B) w :
  (∀ x, x ∈ l → f x w = (Ok (g x), w)) →
  comprehension l f w = (Ok (map g l), w).
Proof.
  induction l as [|x l IH]; intros Hf; [done|].
  simpl. rewrite (bind_Ok _ _ _ _ _ (Hf x (list_elem_of_here _ _))).
  rewrite (bind_Ok _ _ _ _ _ (IH (λ y Hy, Hf y (list_elem_of_further _ _ _ Hy)))).
  done.
Qed.

(** ** Examples *)

Example get_time_intervals_backwards :
  fst (get_time_intervals 20 8 3 world0) = Ok ["20:00"; "16:00"; "12:00"].
Proof. reflexivity. Qed.

Example get_time_intervals_no_posts :
  fst (get_time_intervals 8 20 (-2) world0) = Ok [].
Proof. reflexivity. Qed.

Example send_post_failing_trace :
  trace (snd (send_post (text_post "hello") "@channel" 3 5 world0)) =
  [EvInfo (SendingPost "text" "@channel"); EvSendMessage "@channel" "hello";
   EvError (ErrorRetrying TelegramError 5); EvSleep 5;
   EvInfo (SendingPost "text" "@channel"); EvSendMessage "@channel" "hello";
   EvError (ErrorRetrying TelegramError 10); EvSleep 10;
   EvInfo (SendingPost "text" "@channel"); EvSendMessage "@channel" "hello";
   EvError (ErrorRetrying TelegramError 20); EvSleep 20;
   EvInfo (SendingPost "text" "@channel"); EvSendMessage "@channel" "hello";
   EvError (FailedAfterRetries TelegramError)].
Proof. vm_compute. reflexivity. Qed.

Example send_post_unknown_type :
  trace (snd (send_post {[ "type" := "audio" ]} "@channel" 3 5 world0)) =
  [EvInfo (SendingPost "audio" "@channel"); EvInfo PostSent].
Proof. vm_compute. reflexivity. Qed.

Example send_post_missing_media :
  retries_logged (trace (snd (send_post {[ "type" := "image" ]} "@channel" 3 5 world1))) =
    [5; 10; 20] ∧
  requests (trace (snd (send_post {[ "type" := "image" ]} "@channel" 3 5 world1))) = [].
Proof. vm_compute. done. Qed.

Example get_random_posts_two_of_three :
  fst (get_random_posts "forex_data.json" 2 "forex" world1) =
    Ok [text_post "b"; text_post "c"].
Proof. vm_compute. reflexivity. Qed.

Example get_random_posts_reset :
  let '(r, w) := get_random_posts "forex_data.json" 3 "forex" world1 in
  r = Ok [text_post "a"; text_post "c"; text_post "b"] ∧
  already_sent_today w !! "forex" = Some [text_post "a"; text_post "c"; text_post "b"] ∧
  persistence_file w = Some (already_sent_today w).
Proof. vm_compute. done. Qed.

Example get_random_posts_negative :
  fst (get_random_posts "forex_data.json" (-1) "forex" world1) = Raise ValueError.
Proof. vm_compute. reflexivity. Qed.

Example get_random_posts_unknown_category :
  fst (get_random_posts "forex_data.json" 2 "crypto" world1) = Raise (KeyError "crypto").
Proof. vm_compute. reflexivity. Qed.

Example morning_post_all_sent :
  fst (morning_post
         (set_sent {[ "morning" := [text_post "b"; text_post "a"] ]} world2)) =
  Raise IndexError.
Proof. vm_compute. reflexivity. Qed.

(** ** Time points *)

Lemma strftime_HM_minutes d m : strftime_HM (d * 86400 + m * 60) = hhmm m.
Proof.
  unfold strftime_HM, hhmm. f_equal; [f_equal|do 2 f_equal].
  - Z.div_mod_to_equations. lia.
  - Z.div_mod_to_equations. lia.
Qed.

Lemma midnight_range w :
  datetime_valid (clock w) = true →
  0 ≤ clock w `div` 86400 < 3652059.
Proof.
  unfold datetime_valid, DATETIME_END. intros H.
  apply andb_true_iff in H as [H1%Z.leb_le H2%Z.ltb_lt].
  split; [apply Z.div_pos; lia | apply Z.div_lt_upper_bound; lia].
Qed.

Lemma time_point_ok w s m :
  datetime_valid (clock w) = true →
  0 ≤ s ≤ 23 →
  datetime_valid (midnight w + s * 3600 + m * 60) = true →
  time_point s m w = (Ok (hhmm (s * 60 + m)), w).
Proof.
  intros Hc Hs Ht. pose proof (midnight_range w Hc) as Hd.
  unfold time_point, datetime_now. run. rewrite Hc.
  unfold datetime_replace_hour.
  replace ((0 <=? s) && (s <=? 23)) with true by (symmetry; apply andb_true_iff; lia).
  unfold datetime_add_minutes. run. fold (midnight w). rewrite Ht.
  assert (Hm : -999999999 ≤ (m * 60) `div` 86400 ≤ 999999999).
  { unfold datetime_valid, DATETIME_END, midnight in Ht.
    apply andb_true_iff in Ht as [H1%Z.leb_le H2%Z.ltb_lt].
    Z.div_mod_to_equations. lia. }
  replace (_ || _) with false by (symmetry; apply orb_false_iff; lia).
  do 2 f_equal. unfold midnight.
  replace (clock w `div` 86400 * 86400 + s * 3600 + m * 60)
    with (clock w `div` 86400 * 86400 + (s * 60 + m) * 60) by lia.
  apply strftime_HM_minutes.
Qed.


Lemma get_time_intervals_unfold s e n w :
  n ≠ 0 →
  get_time_intervals s e n w =
  comprehension (seqZ 0 n) (λ i, time_point s (i * (((e - s) * 60) `div` n))) w.
Proof.
  intros Hn. unfold get_time_intervals, floordiv.
  destruct (Z.eqb_spec n 0) as [->|_]; [done|]. reflexivity.
Qed.

(** The time points stay in range when the first and the last one do. *)
Lemma between_valid base c n i :
  datetime_valid base = true →
  datetime_valid (base + (n - 1) * c * 60) = true →
  0 ≤ i < n →
  datetime_valid (base + i * c * 60) = true.
Proof.
  unfold datetime_valid. intros H0 H1 Hi.
  apply andb_true_iff in H0 as [?%Z.leb_le ?%Z.ltb_lt].
  apply andb_true_iff in H1 as [?%Z.leb_le ?%Z.ltb_lt].
  apply andb_true_iff. rewrite Z.leb_le, Z.ltb_lt.
  destruct (Z.le_gt_cases 0 c); nia.
Qed.

Lemma get_time_intervals_ok w s e n :
  1 ≤ n →
  datetime_valid (clock w) = true →
  0 ≤ s ≤ 23 →
  datetime_valid (midnight w + s * 3600 + (n - 1) * (((e - s) * 60) `div` n) * 60) = true →
  get_time_intervals s e n w =
  (Ok (map (λ i, hhmm (s * 60 + i * (((e - s) * 60) `div` n))) (seqZ 0 n)), w).
Proof.
  intros Hn Hc Hs Hlast. rewrite get_time_intervals_unfold by lia.
  apply comprehension_pure. intros i Hi%elem_of_seqZ.
  apply time_point_ok; [done..|].
  apply between_valid with (n := n); [|done|lia].
  pose proof (midnight_range w Hc). unfold datetime_valid, DATETIME_END, midnight.
  apply andb_true_iff. rewrite Z.leb_le, Z.ltb_lt. lia.
Qed.

(** ** Claims on [get_time_intervals] *)

(** C7: [get_time_intervals(8, 20, 5)] is exactly
    ["08:00", "10:24", "12:48", "15:12", "17:36"], whatever the day on which
    it is called: five time-of-day strings from 08:00, 144 minutes apart. *)
Theorem get_time_intervals_8_20_5 w :
  datetime_valid (clock w) = true →
  get_time_intervals 8 20 5 w =
  (Ok ["08:00"; "10:24"; "12:48"; "15:12"; "17:36"], w).
Proof.
  intros Hc. rewrite get_time_intervals_ok; [reflexivity | lia | done | lia |].
  pose proof (midnight_range w Hc). unfold datetime_valid, DATETIME_END, midnight.
  apply andb_true_iff. rewrite Z.leb_le, Z.ltb_lt.
  assert (E : ((20 - 8) * 60) `div` 5 = 144) by reflexivity. rewrite E. lia.
Qed.

Lemma get_time_intervals_8_20_5_witness :
  datetime_valid (clock world0) = true ∧
  get_time_intervals 8 20 5 world0 =
  (Ok ["08:00"; "10:24"; "12:48"; "15:12"; "17:36"], world0).
Proof.
  split; [reflexivity | apply (get_time_intervals_8_20_5 world0); reflexivity].
Defined.




(** ** Dispatch *)

Local Open Scope list_scope.

Lemma sleeps_app evs1 evs2 : sleeps (evs1 ++ evs2) = sleeps evs1 ++ sleeps evs2.
Proof.
  induction evs1 as [|ev evs1 IH]; [done|].
  destruct ev; simpl; by rewrite ?IH.
Qed.

Lemma retries_logged_app evs1 evs2 :
  retries_logged (evs1 ++ evs2) = retries_logged evs1 ++ retries_logged evs2.
Proof.
  induction evs1 as [|ev evs1 IH]; [done|].
  destruct ev as [m|m| | | |]; try destruct m; simpl; by rewrite ?IH.
Qed.

Lemma requests_app evs1 evs2 : requests (evs1 ++ evs2) = requests evs1 ++ requests evs2.
Proof.
  induction evs1 as [|ev evs1 IH]; [done|].
  simpl. destruct (is_request ev); simpl; by rewrite IH.
Qed.

Lemma slept_app evs1 evs2 : slept (evs1 ++ evs2) = slept evs1 + slept evs2.
Proof.
  unfold slept. rewrite sleeps_app, foldr_app.
  induction (sleeps evs1) as [|d l IH]; simpl; lia.
Qed.

Lemma dispatched_refl w : dispatched w [] w.
Proof.
  split; try done.
  - by rewrite app_nil_r.
  - change (slept []) with 0. lia.
Qed.

Lemma dispatched_trans w1 evs1 w2 evs2 w3 :
  dispatched w1 evs1 w2 → dispatched w2 evs2 w3 → dispatched w1 (evs1 ++ evs2) w3.
Proof.
  intros [] []. split; try congruence.
  - rewrite app_assoc. congruence.
  - rewrite requests_app, length_app. lia.
  - rewrite slept_app. lia.
Qed.

Lemma dispatched_emit w ev :
  is_request ev = false → (∀ d, ev ≠ EvSleep d) →
  dispatched w [ev] (set_trace (trace w ++ [ev]) w).
Proof.
  intros Hr Hs. split; try done; simpl.
  - rewrite Hr. simpl. lia.
  - unfold slept. destruct ev; simpl; try lia. by destruct (Hs seconds).
Qed.

Lemma api_call_dispatched request w r w' :
  is_request request = true →
  api_call request w = (r, w') →
  dispatched w [request] w' ∧
  r = (if api_ok w (api_calls w) then Ok tt else Raise TelegramError).
Proof.
  intros Hreq. unfold api_call, emit. run. simpl.
  destruct (api_ok w (api_calls w)); intros [= <- <-].
  all: split; [|done]; split; try done; simpl.
  all: try (rewrite Hreq; simpl; lia).
  all: unfold slept; destruct request; simpl; try lia; discriminate.
Qed.

(** One attempt changes nothing but the trace and the count of client
    calls. *)
Lemma send_post_try_dispatched post channel_id w r w' :
  send_post_try post channel_id w = (r, w') →
  ∃ evs, dispatched w evs w' ∧ attempt_events post evs.
Proof.
  unfold attempt_events, sendable, send_post_try, post_item, logging_info, emit. run.
  destruct (post !! "type") as [type|];
    [|intros [= <- <-]; exists []; split; [apply dispatched_refl|];
      split_and!; try done; cbn; lia].
  set (w1 := set_trace _ w).
  assert (H1 : dispatched w [EvInfo (SendingPost type channel_id)] w1)
    by (by apply dispatched_emit).
  assert (Hreq : ∀ request k r w',
    is_request request = true →
    (let (r0, w2) := api_call request w1 in
     match r0 with Ok a => k a w2 | Raise e => (Raise e, w2) end) = (r, w') →
    (∀ w2, k tt w2 = (Ok tt, set_trace (trace w2 ++ [EvInfo PostSent]) w2)) →
    ∃ evs, dispatched w evs w' ∧ sleeps evs = [] ∧ retries_logged evs = [] ∧
           length (requests evs) = 1%nat).
  { clear r w'. intros request k r w' Hr Hrun Hk.
    destruct (api_call request w1) as [r0 w2] eqn:E.
    apply api_call_dispatched in E as [Hd ->]; [|done].
    pose proof (dispatched_trans _ _ _ _ _ H1 Hd) as H2.
    destruct (api_ok w1 (api_calls w1)).
    - rewrite Hk in Hrun. injection Hrun as <- <-.
      eexists. split; [eapply dispatched_trans; [exact H2|by apply dispatched_emit]|].
      destruct request; try discriminate; simpl; auto.
    - injection Hrun as <- <-. eexists. split; [exact H2|].
      destruct request; try discriminate; simpl; auto. }
  assert (Hone : ∀ r w',
    (∃ evs, dispatched w evs w' ∧ sleeps evs = [] ∧ retries_logged evs = [] ∧
            length (requests evs) = 1%nat) →
    ∃ evs, dispatched w evs w' ∧ sleeps evs = [] ∧ retries_logged evs = [] ∧
           (length (requests evs) ≤ 1)%nat ∧ (r = true → length (requests evs) = 1%nat)).
  { intros ? ? (evs & ? & ? & ? & Hl). exists evs. rewrite Hl. auto. }
  destruct (post !! "media") as [media|]; destruct (post !! "content") as [content|].
  all: repeat case_bool_decide; simpl.
  all: try (intros Hrun; apply Hone; eapply Hreq; [|exact Hrun|]; done).
  all: intros [= <- <-]; eexists.
  all: (split; [first [exact H1
                      | eapply dispatched_trans; [exact H1|by apply dispatched_emit]]|]).
  all: split_and!; try done; cbn; try lia.
  all: try match goal with H : is_Some None |- _ => by destruct H end.
Qed.

Lemma asyncio_sleep_dispatched d w :
  ∃ w', asyncio_sleep d w = (Ok tt, w') ∧ dispatched w [EvSleep d] w'.
Proof.
  eexists. split; [reflexivity|].
  split; try done; simpl. unfold slept. simpl. lia.
Qed.

Lemma fails_every_attempt_later post channel_id w evs w' :
  dispatched w evs w' →
  fails_every_attempt post channel_id w → fails_every_attempt post channel_id w'.
Proof.
  intros Hd Hf w'' Hsame. apply Hf. intros n.
  rewrite Hsame. by rewrite (dispatched_api_ok _ _ _ Hd).
Qed.

(** [send_post] never raises, whatever the client does, and changes nothing
    but the trace, the clock and the count of client calls. *)
Lemma send_post_rec_dispatched retries post channel_id delay w :
  ∃ evs w', send_post_rec retries post channel_id delay w = (Ok tt, w') ∧
            dispatched w evs w'.
Proof.
  revert delay w. induction retries as [|retries IH]; intros delay w; simpl.
  all: unfold try_except.
  all: destruct (send_post_try post channel_id w) as [[[]|e] w1] eqn:E.
  all: apply send_post_try_dispatched in E as (evs1 & H1 & _); eauto.
  - unfold logging_error, emit, modify. eexists _, _. split; [done|].
    eapply dispatched_trans; [exact H1|]. by apply dispatched_emit.
  - unfold logging_error, emit. run.
    match goal with |- context [asyncio_sleep _ ?w2] =>
      destruct (asyncio_sleep_dispatched delay w2) as (w3 & -> & H3) end.
    destruct (IH (delay * 2) w3) as (evs4 & w4 & -> & H4).
    eexists _, _. split; [done|].
    eapply dispatched_trans; [exact H1|].
    eapply dispatched_trans; [|eapply dispatched_trans; [exact H3|exact H4]].
    by apply dispatched_emit.
Qed.

Lemma last_app_singleton {A} (l : list A) x : last (l ++ [x]) = Some x.
Proof. by rewrite last_snoc. Qed.

(** A send that fails on every attempt: after the first attempt,
    [retries] more are made, each after a sleep twice as long as the one
    before; then the failure is logged and the call returns normally. *)
Lemma send_post_rec_failing retries post channel_id delay w :
  fails_every_attempt post channel_id w →
  ∃ evs e w',
    send_post_rec retries post channel_id delay w = (Ok tt, w') ∧
    dispatched w evs w' ∧
    sleeps evs = backoff retries delay ∧
    retries_logged evs = backoff retries delay ∧
    last evs = Some (EvError (FailedAfterRetries e)) ∧
    (length (requests evs) ≤ S retries)%nat ∧
    (sendable post = true → length (requests evs) = S retries).
Proof.
  revert delay w. induction retries as [|retries IH]; intros delay w Hfail; simpl.
  all: unfold try_except.
  all: destruct (Hfail w) as (e & w1 & E); [done|]; rewrite E.
  all: apply send_post_try_dispatched in E as (evs1 & H1 & Hs1 & Hr1 & Hle1 & Hq1).
  - exists (evs1 ++ [EvError (FailedAfterRetries e)]), e. eexists.
    split; [reflexivity|]. split_and!.
    + eapply dispatched_trans; [exact H1|]. by apply dispatched_emit.
    + by rewrite sleeps_app, Hs1.
    + by rewrite retries_logged_app, Hr1.
    + apply last_app_singleton.
    + rewrite requests_app, length_app. simpl. lia.
    + intros Hp. rewrite requests_app, length_app, (Hq1 Hp). simpl. lia.
  - unfold logging_error, emit. run.
    match goal with |- context [asyncio_sleep _ ?w2] =>
      set (w2' := w2);
      destruct (asyncio_sleep_dispatched delay w2') as (w3 & -> & H3) end.
    assert (H2 : dispatched w1 [EvError (ErrorRetrying e delay)] w2')
      by (by apply dispatched_emit).
    pose proof (dispatched_trans _ _ _ _ _ H1 (dispatched_trans _ _ _ _ _ H2 H3)) as H13.
    destruct (IH (delay * 2) w3) as (evs4 & e' & w4 & -> & H4 & Hs4 & Hr4 & Hl4 & Hle4 & Hq4).
    { by eapply fails_every_attempt_later. }
    exists (evs1 ++ ([EvError (ErrorRetrying e delay)] ++ [EvSleep delay]) ++ evs4), e', w4.
    split; [reflexivity|]. split_and!.
    + eapply dispatched_trans; [exact H1|].
      eapply dispatched_trans; [|exact H4]. by eapply dispatched_trans.
    + rewrite sleeps_app, Hs1. simpl. by rewrite Hs4.
    + rewrite retries_logged_app, Hr1. simpl. by rewrite Hr4.
    + rewrite app_assoc, last_app, Hl4. done.
    + rewrite requests_app, length_app. simpl. lia.
    + intros Hp. rewrite requests_app, length_app, (Hq1 Hp). simpl. rewrite (Hq4 Hp). lia.
Qed.

(** A sendable post fails on every attempt when the client is down. *)
Lemma api_down_fails post channel_id w :
  sendable post = true →
  (∀ n, api_ok w n = false) →
  fails_every_attempt post channel_id w.
Proof.
  unfold sendable, fails_every_attempt, send_post_try, post_item, logging_info, api_call, emit.
  intros Hs Hdown w' Hsame. run.
  destruct (post !! "type") as [type|]; [|done].
  destruct (post !! "media") as [media|]; destruct (post !! "content") as [content|].
  all: repeat case_bool_decide; simpl in *; try done.
  all: rewrite Hsame, Hdown; eauto.
Qed.

(** ** Claims on [send_post] *)



(** C3 as the claim states it fails: against a client that is down, the
    default [send_post] of a text post calls the client 4 times, not at
    most 3. *)
Lemma send_post_default_4_requests :
  let w' := snd (send_post (text_post "hello") "@channel" 3 5 world0) in
  requests (trace w') =
    [EvSendMessage "@channel" "hello"; EvSendMessage "@channel" "hello";
     EvSendMessage "@channel" "hello"; EvSendMessage "@channel" "hello"] ∧
  api_calls w' = 4%nat ∧
  ¬ (length (requests (trace w')) ≤ 3)%nat.
Proof. vm_compute. split_and!; [reflexivity | reflexivity | lia]. Qed.

(** C3, amended: a send that fails on every attempt makes at most
    [retries + 1] requests to the client before giving up, and exactly
    [retries + 1] when the post is sendable: 4 for the default of 3
    retries, the first attempt and the 3 retries. *)
Theorem send_post_attempts_retries_plus_1 post channel_id retries delay w :
  fails_every_attempt post channel_id w →
  ∃ evs w',
    send_post post channel_id retries delay w = (Ok tt, w') ∧
    trace w' = trace w ++ evs ∧
    api_calls w' = (api_calls w + length (requests evs))%nat ∧
    (length (requests evs) ≤ Z.to_nat retries + 1)%nat ∧
    (sendable post = true → length (requests evs) = (Z.to_nat retries + 1)%nat).
Proof.
  intros Hfail. unfold send_post.
  destruct (send_post_rec_failing (Z.to_nat retries) post channel_id delay w Hfail)
    as (evs & e & w' & Hrun & Hd & _ & _ & _ & Hle & Heq).
  exists evs, w'. split_and!; try done; try apply Hd; [lia|].
  intros Hp. rewrite (Heq Hp). lia.
Qed.

Lemma send_post_attempts_retries_plus_1_witness :
  ∃ evs w',
    send_post (text_post "hello") "@channel" 3 5 world0 = (Ok tt, w') ∧
    trace w' = trace world0 ++ evs ∧
    api_calls w' = (api_calls world0 + length (requests evs))%nat ∧
    (length (requests evs) ≤ Z.to_nat 3 + 1)%nat ∧
    (sendable (text_post "hello") = true →
     length (requests evs) = (Z.to_nat 3 + 1)%nat).
Proof.
  apply (send_post_attempts_retries_plus_1 (text_post "hello") "@channel" 3 5 world0).
  apply api_down_fails; [reflexivity | intros n; reflexivity].
Defined.

(** ** Selection *)

Lemma set_rng_pos_0 w : set_rng_pos (rng_pos w + 0) w = w.
Proof. destruct w. unfold set_rng_pos. simpl. f_equal. lia. Qed.

Lemma randbelow_run n w :
  randbelow n w = (Ok (rng w (rng_pos w) mod n)%nat, set_rng_pos (S (rng_pos w)) w).
Proof. reflexivity. Qed.

(** [random.sample] draws at pairwise distinct positions: what it returns
    is, up to order, a sublist of the population. *)
Lemma sample_draw_run {A} (k : nat) (pool : list A) w :
  (k ≤ length pool)%nat →
  ∃ sel, sample_draw k pool w = (Ok sel, set_rng_pos (rng_pos w + k) w) ∧
         sel ⊆+ pool ∧ length sel = k.
Proof.
  revert pool w. induction k as [|k IH]; intros pool w Hk; simpl.
  - exists []. rewrite set_rng_pos_0. split_and!; [done| |done].
    apply submseteq_nil_l.
  - unfold bind at 1. rewrite randbelow_run.
    set (j := (rng w (rng_pos w) mod length pool)%nat).
    assert (Hj : (j < length pool)%nat) by (apply Nat.mod_upper_bound; lia).
    destruct (lookup_lt_is_Some_2 pool j Hj) as [x Hx]. rewrite Hx.
    destruct (IH (delete j pool) (set_rng_pos (S (rng_pos w)) w)) as (rest & E & Hsub & Hlen).
    { rewrite length_delete by eauto. lia. }
    exists (x :: rest). unfold bind. rewrite E. split_and!.
    + by replace (rng_pos w + S k)%nat with (S (rng_pos w) + k)%nat by lia.
    + rewrite (delete_Permutation pool j x Hx). by apply submseteq_skip.
    + simpl. lia.
Qed.

(** Conversely, every such list is returned for some draws of the
    generator: the model of [random.sample] leaves no outcome out. *)
Lemma sample_draw_complete {A} (sel pool : list A) :
  sel ⊆+ pool →
  ∃ draws : list nat,
    length draws = length sel ∧
    ∀ w, (∀ i d, draws !! i = Some d → rng w (rng_pos w + i) = d) →
         fst (sample_draw (length sel) pool w) = Ok sel.
Proof.
  revert pool. induction sel as [|x sel IH]; intros pool Hsub.
  - exists []. split; [done|]. by intros w _.
  - assert (Hx : x ∈ pool).
    { eapply elem_of_submseteq; [|exact Hsub]. apply list_elem_of_here. }
    apply list_elem_of_lookup_1 in Hx as [j Hj].
    pose proof (lookup_lt_Some _ _ _ Hj) as Hlt.
    destruct (IH (delete j pool)) as (draws & Hlen & Hdraws).
    { apply (submseteq_app_inv_l _ _ [x]). simpl.
      by rewrite <- (delete_Permutation pool j x Hj). }
    exists (j :: draws). split; [simpl; lia|].
    intros w Hw. simpl. unfold bind at 1. rewrite randbelow_run.
    rewrite <- (Nat.add_0_r (rng_pos w)), (Hw 0%nat j eq_refl).
    rewrite Nat.mod_small by done. rewrite Hj.
    unfold bind, ret.
    specialize (Hdraws (set_rng_pos (S (rng_pos w + 0)) w)).
    assert (Hrest : ∀ i d, draws !! i = Some d →
      rng (set_rng_pos (S (rng_pos w + 0)) w)
          (rng_pos (set_rng_pos (S (rng_pos w + 0)) w) + i) = d).
    { intros i d Hi. rewrite <- (Hw (S i) d Hi). simpl. f_equal. lia. }
    specialize (Hdraws Hrest).
    destruct (sample_draw _ _ _) as [[rest|e] w1]; simpl in *; congruence.
Qed.

Lemma random_sample_inv {A} (population : list A) k w sel w' :
  random_sample population k w = (Ok sel, w') →
  0 ≤ k ≤ Z.of_nat (length population) ∧ sel ⊆+ population ∧ length sel = Z.to_nat k ∧
  w' = set_rng_pos (rng_pos w + Z.to_nat k) w.
Proof.
  unfold random_sample.
  destruct (Z.leb_spec 0 k); destruct (Z.leb_spec k (Z.of_nat (length population))); simpl;
    try discriminate.
  destruct (sample_draw_run (Z.to_nat k) population w) as (sel0 & E & Hsub & Hlen); [lia|].
  rewrite E. intros [= <- <-]. split_and!; try done; lia.
Qed.

Lemma random_choice_inv {A} (l : list A) w x w' :
  random_choice l w = (Ok x, w') →
  x ∈ l ∧ w' = set_rng_pos (S (rng_pos w)) w.
Proof.
  unfold random_choice. destruct l as [|y l]; [discriminate|].
  unfold bind. rewrite randbelow_run.
  destruct (_ !! _) as [z|] eqn:E; [|discriminate].
  intros [= <- <-]. split; [|done]. by eapply list_elem_of_lookup_2.
Qed.

Lemma random_choice_nonempty {A} (l : list A) w :
  l ≠ [] → ∃ x, random_choice l w = (Ok x, set_rng_pos (S (rng_pos w)) w) ∧ x ∈ l.
Proof.
  intros Hl. unfold random_choice. destruct l as [|y l]; [done|].
  unfold bind. rewrite randbelow_run.
  set (j := (_ mod _)%nat).
  assert (Hj : (j < length (y :: l))%nat) by (apply Nat.mod_upper_bound; simpl; lia).
  destruct (lookup_lt_is_Some_2 _ j Hj) as [x Hx]. rewrite Hx.
  exists x. split; [done|]. by eapply list_elem_of_lookup_2.
Qed.

Lemma unsent_run key data w old :
  already_sent_today w !! key = Some old →
  unsent key data w = (Ok (filter (λ p, p ∉ old) data), w).
Proof.
  intros Hold. unfold unsent.
  assert (Hc : ∀ p, (sent <~ tracker_get key ;; ret (bool_decide (p ∉ sent))) w =
                    (Ok (bool_decide (p ∉ old)), w)).
  { intros p. unfold tracker_get, get. run. by rewrite Hold. }
  induction data as [|p data IH]; [done|].
  simpl. rewrite (bind_Ok _ _ _ _ _ (Hc p)), (bind_Ok _ _ _ _ _ IH).
  unfold ret. rewrite filter_cons. by case_bool_decide; case_decide.
Qed.

Lemma unsent_no_key key data w :
  already_sent_today w !! key = None →
  unsent key data w =
  (match data with [] => Ok [] | _ => Raise (KeyError key) end, w).
Proof.
  intros Hnone. destruct data as [|p data]; [done|].
  unfold unsent. simpl. unfold tracker_get, get. run. by rewrite Hnone.
Qed.

Lemma unsent_inv key data w available w' :
  unsent key data w = (Ok available, w') →
  w' = w ∧ available = filter (λ p, p ∉ already_sent_today w !!! key) data.
Proof.
  destruct (already_sent_today w !! key) as [old|] eqn:E.
  - rewrite (unsent_run _ _ _ _ E). intros [= <- <-].
    by rewrite (lookup_total_correct _ _ _ E).
  - rewrite (unsent_no_key _ _ _ E). destruct data; [|discriminate].
    by intros [= <- <-].
Qed.

Lemma load_data_inv file_path w data w' :
  load_data file_path w = (Ok data, w') →
  files w !! file_path = Some (Some data) ∧
  w' = set_trace (trace w ++ [EvInfo (LoadingData file_path)]) w.
Proof.
  unfold load_data, logging_info, emit. run. simpl.
  destruct (files w !! file_path) as [[d|]|]; try discriminate.
  by intros [= <- <-].
Qed.

Lemma tracker_get_inv key w l w' :
  tracker_get key w = (Ok l, w') →
  w' = w ∧ already_sent_today w !! key = Some l.
Proof.
  unfold tracker_get, get. run.
  destruct (already_sent_today w !! key); [|discriminate]. by intros [= <- <-].
Qed.

(** Every normal return of [get_random_posts], described. *)
Lemma get_random_posts_inv file_path num_posts post_type w sel w' :
  get_random_posts file_path num_posts post_type w = (Ok sel, w') →
  ∃ data evs,
    files w !! file_path = Some (Some data) ∧
    let old := already_sent_today w !!! post_type in
    let available := filter (λ p, p ∉ old) data in
    let reset := bool_decide (Z.of_nat (length available) < num_posts) in
    let pool := if reset then data else available in
    0 ≤ num_posts ∧
    sel ⊆+ pool ∧
    length sel = Z.to_nat (Z.min num_posts (Z.of_nat (length pool))) ∧
    already_sent_today w' =
      <[post_type := if reset then sel else old ++ sel]> (already_sent_today w) ∧
    persistence_file w' = Some (already_sent_today w') ∧
    selected w evs w'.
Proof.
  unfold get_random_posts. fold (unsent post_type).
  intros H.
  apply bind_Ok_inv in H as (data & w1 & [Hfile ->]%load_data_inv & H).
  apply bind_Ok_inv in H as (available & w2 & [-> ->]%unsent_inv & H).
  set (w1 := set_trace _ w) in *.
  change (already_sent_today w1) with (already_sent_today w) in *.
  set (old := already_sent_today w !!! post_type) in *.
  set (available := filter (λ p, p ∉ old) data) in *.
  apply bind_Ok_inv in H as (pool & w3 & Hpool & H).
  apply bind_Ok_inv in H as (sel0 & w4 & (Hk & Hsub & Hlen & ->)%random_sample_inv & H).
  apply bind_Ok_inv in H as (sent & w5 & [-> Hsent]%tracker_get_inv & H).
  unfold tracker_set, save_sent_data, logging_info, emit in H. run in H.
  injection H as <- <-.
  exists data. subst available old. cbv zeta.
  destruct (Z.ltb_spec
    (Z.of_nat (length (filter (λ p, p ∉ already_sent_today w !!! post_type) data)))
    num_posts) as [Hreset|Hreset].
  - rewrite (bool_decide_eq_true_2 _ Hreset).
    unfold tracker_set, logging_info, emit in Hpool. run in Hpool.
    injection Hpool as <- <-. simpl in *.
    rewrite lookup_insert_eq in Hsent. injection Hsent as <-.
    exists [EvInfo (LoadingData file_path); EvInfo (NotEnoughAvailable post_type);
            EvInfo SavingSentPosts].
    split_and!; try done; [lia| |].
    + by rewrite insert_insert_eq.
    + split; try done; simpl. by rewrite <- !app_assoc.
  - rewrite bool_decide_eq_false_2 by lia.
    injection Hpool as <- <-. simpl in *.
    rewrite (lookup_total_correct _ _ _ Hsent) in *.
    exists [EvInfo (LoadingData file_path); EvInfo SavingSentPosts].
    split_and!; try done; [lia|].
    split; try done; simpl. by rewrite <- !app_assoc.
Qed.

Lemma load_data_run file_path w data :
  files w !! file_path = Some (Some data) →
  load_data file_path w =
  (Ok data, set_trace (trace w ++ [EvInfo (LoadingData file_path)]) w).
Proof. intros H. unfold load_data, logging_info, emit. run. simpl. by rewrite H. Qed.

Lemma random_sample_run {A} (population : list A) k w :
  0 ≤ k ≤ Z.of_nat (length population) →
  ∃ sel, random_sample population k w = (Ok sel, set_rng_pos (rng_pos w + Z.to_nat k) w).
Proof.
  intros Hk. unfold random_sample.
  destruct (Z.leb_spec 0 k); destruct (Z.leb_spec k (Z.of_nat (length population)));
    try lia; simpl.
  destruct (sample_draw_run (Z.to_nat k) population w) as (sel & E & _); [lia|].
  eauto.
Qed.

(** With its file readable, its category in the tracker and a count that
    is not negative, [get_random_posts] returns normally. *)
Lemma get_random_posts_returns file_path num_posts post_type w data old :
  files w !! file_path = Some (Some data) →
  already_sent_today w !! post_type = Some old →
  0 ≤ num_posts →
  ∃ sel w', get_random_posts file_path num_posts post_type w = (Ok sel, w').
Proof.
  intros Hfile Hold Hn. unfold get_random_posts. fold (unsent post_type).
  rewrite (bind_Ok _ _ _ _ _ (load_data_run _ _ _ Hfile)).
  set (w1 := set_trace _ w).
  rewrite (bind_Ok _ _ _ _ _ (unsent_run post_type data w1 old Hold)).
  set (available := filter _ data).
  destruct (Z.ltb_spec (Z.of_nat (length available)) num_posts) as [Hreset|Hreset].
  - unfold tracker_set, logging_info, emit. run.
    match goal with |- context [random_sample data ?k ?w2] =>
      destruct (random_sample_run data k w2) as [sel ->]; [lia|] end.
    unfold tracker_get. run. simpl. rewrite lookup_insert_eq. eauto.
  - run.
    match goal with |- context [random_sample available ?k ?w2] =>
      destruct (random_sample_run available k w2) as [sel ->]; [lia|] end.
    unfold tracker_get. run. simpl. rewrite Hold. eauto.
Qed.

(** ** Claim on [get_random_posts] *)

(** C1: whenever [get_random_posts] returns, either the unsent posts were
    at least as many as asked for, and then no returned post was in the
    category's sent list as it stood before the call (the returned posts
    are appended to that list); or they were fewer, and then the sent list
    was reset first: the posts are drawn from the whole file and the sent
    list holds just them afterwards. *)
Theorem get_random_posts_never_repeats file_path num_posts post_type w sel w' :
  get_random_posts file_path num_posts post_type w = (Ok sel, w') →
  ∃ data,
    files w !! file_path = Some (Some data) ∧
    let old := already_sent_today w !!! post_type in
    let available := filter (λ p, p ∉ old) data in
    (num_posts ≤ Z.of_nat (length available) →
       (∀ p, p ∈ sel → p ∉ old) ∧
       sel ⊆+ available ∧
       length sel = Z.to_nat num_posts ∧
       already_sent_today w' !! post_type = Some (old ++ sel)) ∧
    (Z.of_nat (length available) < num_posts →
       sel ⊆+ data ∧
       length sel = Z.to_nat (Z.min num_posts (Z.of_nat (length data))) ∧
       already_sent_today w' !! post_type = Some sel).
Proof.
  intros H. apply get_random_posts_inv in H
    as (data & evs & Hfile & Hn & Hsub & Hlen & Hsent & _).
  exists data. split; [done|]. cbv zeta in *. split; intros Hcase.
  - rewrite bool_decide_eq_false_2 in Hsub, Hlen, Hsent by lia.
    split_and!; [|done|lia|by rewrite Hsent, lookup_insert_eq].
    intros p Hp. pose proof (elem_of_submseteq _ _ _ Hp Hsub) as Hp'.
    by apply list_elem_of_filter in Hp' as [? _].
  - rewrite (bool_decide_eq_true_2 _ Hcase) in Hsub, Hlen, Hsent.
    split_and!; [done|done|by rewrite Hsent, lookup_insert_eq].
Qed.

Lemma get_random_posts_never_repeats_witness :
  ∃ data,
    files world1 !! "forex_data.json" = Some (Some data) ∧
    let old := already_sent_today world1 !!! "forex" in
    let available := filter (λ p, p ∉ old) data in
    (2 ≤ Z.of_nat (length available) →
       (∀ p, p ∈ [text_post "b"; text_post "c"] → p ∉ old) ∧
       [text_post "b"; text_post "c"] ⊆+ available ∧
       length [text_post "b"; text_post "c"] = Z.to_nat 2 ∧
       already_sent_today (snd (get_random_posts "forex_data.json" 2 "forex" world1))
         !! "forex" = Some (old ++ [text_post "b"; text_post "c"])) ∧
    (Z.of_nat (length available) < 2 →
       [text_post "b"; text_post "c"] ⊆+ data ∧
       length [text_post "b"; text_post "c"] =
         Z.to_nat (Z.min 2 (Z.of_nat (length data))) ∧
       already_sent_today (snd (get_random_posts "forex_data.json" 2 "forex" world1))
         !! "forex" = Some [text_post "b"; text_post "c"]).
Proof.
  apply (get_random_posts_never_repeats "forex_data.json" 2 "forex" world1).
  vm_compute. reflexivity.
Defined.

(** ** [morning_post] and [weekend_post] *)

Lemma morning_post_single : morning_post = single_post "morning" "morning_data.json".
Proof. reflexivity. Qed.

Lemma weekend_post_single : weekend_post = single_post "weekend" "weekend_data.json".
Proof. reflexivity. Qed.

Lemma load_data_frame file_path w r w' :
  load_data file_path w = (r, w') →
  w' = set_trace (trace w ++ [EvInfo (LoadingData file_path)]) w.
Proof.
  unfold load_data, logging_info, emit. run. simpl.
  destruct (files w !! file_path) as [[d|]|]; by intros [= <- <-].
Qed.

Lemma unsent_frame key data w r w' : unsent key data w = (r, w') → w' = w.
Proof.
  destruct (already_sent_today w !! key) as [old|] eqn:E.
  - rewrite (unsent_run _ _ _ _ E). by intros [= <- <-].
  - rewrite (unsent_no_key _ _ _ E). by intros [= <- <-].
Qed.

(** Every run of the body: either it raises before a post is chosen, and
    then neither the tracker nor the client was touched; or a post is
    chosen among the unsent ones, the sent list becomes that one post, and
    only then the post is dispatched and the tracker saved. *)
Lemma single_post_cases category data_file w r w' :
  single_post category data_file w = (r, w') →
  (∃ e, r = Raise e ∧
        already_sent_today w' = already_sent_today w ∧
        persistence_file w' = persistence_file w ∧
        api_calls w' = api_calls w) ∨
  (∃ data post evs w2,
     r = Ok tt ∧
     files w !! data_file = Some (Some data) ∧
     post ∈ data ∧ (post ∉ already_sent_today w !!! category) ∧
     send_post_default post (CHANNEL_ID w) (chosen category data_file post w) = (Ok tt, w2) ∧
     dispatched (chosen category data_file post w) evs w2 ∧
     w' = set_persistence (Some (already_sent_today w2))
            (set_trace (trace w2 ++ [EvInfo SavingSentPosts]) w2)).
Proof.
  unfold single_post. fold (unsent category). intros H.
  destruct (load_data data_file w) as [[data|e] w1] eqn:E1.
  2: { rewrite (bind_Raise _ _ _ _ _ E1) in H. injection H as <- <-.
       apply load_data_frame in E1 as ->. left. eauto. }
  rewrite (bind_Ok _ _ _ _ _ E1) in H.
  apply load_data_inv in E1 as [Hfile ->]. set (w1 := set_trace _ w) in *.
  destruct (unsent category data w1) as [[candidates|e] w2] eqn:E2.
  2: { rewrite (bind_Raise _ _ _ _ _ E2) in H. injection H as <- <-.
       apply unsent_frame in E2 as ->. left. eauto. }
  rewrite (bind_Ok _ _ _ _ _ E2) in H.
  apply unsent_inv in E2 as [-> ->].
  change (already_sent_today w1) with (already_sent_today w) in *.
  set (candidates := filter _ data) in *.
  destruct (decide (candidates = [])) as [Hnil|Hsome].
  { rewrite Hnil in H. injection H as <- <-. left. eauto. }
  destruct (random_choice_nonempty candidates w1 Hsome) as (post & E3 & Hpost).
  rewrite (bind_Ok _ _ _ _ _ E3) in H.
  unfold tracker_set in H. run in H.
  change (set_sent _ _) with (chosen category data_file post w) in H.
  change (CHANNEL_ID (chosen category data_file post w)) with (CHANNEL_ID w) in H.
  destruct (send_post_rec_dispatched (Z.to_nat 3) post (CHANNEL_ID w) 5
              (chosen category data_file post w)) as (evs & w2 & E4 & Hd).
  change (send_post_rec _ _ _ _) with (send_post_default post (CHANNEL_ID w)) in E4.
  rewrite E4 in H. unfold save_sent_data, logging_info, emit in H. run in H.
  injection H as <- <-. right.
  apply list_elem_of_filter in Hpost as [Hnew Hin].
  exists data, post, evs, w2. split_and!; done.
Qed.

(** With its file readable, its category in the tracker and a post that
    is not in the sent list, the body returns normally. *)
Lemma single_post_returns category data_file w data old :
  files w !! data_file = Some (Some data) →
  already_sent_today w !! category = Some old →
  filter (λ p, p ∉ old) data ≠ [] →
  ∃ w', single_post category data_file w = (Ok tt, w').
Proof.
  intros Hfile Hold Hsome. unfold single_post. fold (unsent category).
  rewrite (bind_Ok _ _ _ _ _ (load_data_run _ _ _ Hfile)).
  set (w1 := set_trace _ w).
  rewrite (bind_Ok _ _ _ _ _ (unsent_run category data w1 old Hold)).
  destruct (random_choice_nonempty _ w1 Hsome) as (post & E & _).
  rewrite (bind_Ok _ _ _ _ _ E). unfold tracker_set. run.
  match goal with |- context [send_post_default post ?c ?w2] =>
    destruct (send_post_rec_dispatched (Z.to_nat 3) post c 5 w2) as (evs & w3 & E3 & _) end.
  unfold send_post_default, send_post. rewrite E3. by eexists.
Qed.

Lemma single_post_replaces category data_file :
  replaces_sent category data_file (single_post category data_file).
Proof.
  intros w r w' H. apply single_post_cases in H
    as [(e & -> & Hs & _)|(data & post & evs & w2 & -> & Hf & Hin & Hnew & _ & Hd & ->)].
  - left. eauto.
  - right. exists data, post. split_and!; try done; simpl.
    + by rewrite (dispatched_sent _ _ _ Hd); simpl; rewrite lookup_insert_eq.
    + by rewrite (dispatched_sent _ _ _ Hd).
Qed.

(** C8: [morning_post] and [weekend_post] replace the sent list of their
    category: after every call that chooses a post, the list is exactly
    that one post, whatever it held before; a call that raises chooses no
    post and leaves the list alone.  So the list never grows. *)
Theorem morning_weekend_replace :
  replaces_sent "morning" "morning_data.json" morning_post ∧
  replaces_sent "weekend" "weekend_data.json" weekend_post.
Proof. split; apply single_post_replaces. Qed.

Lemma morning_weekend_replace_witness :
  already_sent_today (snd (morning_post world2)) !! "morning" = Some [text_post "b"] ∧
  already_sent_today (snd (weekend_post world2)) !! "weekend" = Some [text_post "y"].
Proof.
  destruct morning_weekend_replace as [Hm Hw]. split.
  - destruct (Hm world2 (fst (morning_post world2)) (snd (morning_post world2)))
      as [(e & He & _)|(data & post & _ & Hf & Hin & Hnew & Hs & _)].
    + by destruct (morning_post world2).
    + vm_compute in He. discriminate.
    + vm_compute. reflexivity.
  - destruct (Hw world2 (fst (weekend_post world2)) (snd (weekend_post world2)))
      as [(e & He & _)|(data & post & _ & Hf & Hin & Hnew & Hs & _)].
    + by destruct (weekend_post world2).
    + vm_compute in He. discriminate.
    + vm_compute. reflexivity.
Defined.

(** ** Claim on empty content *)

(** C5 as the claim states it fails: on an empty forex file,
    [get_random_posts] returns the empty list normally; it reports no
    error. *)
Lemma get_random_posts_empty_returns :
  fst (get_random_posts "forex_data.json" 5 "forex" world3) = Ok [] ∧
  ¬ ∃ e, fst (get_random_posts "forex_data.json" 5 "forex" world3) = Raise e.
Proof.
  split; [vm_compute; reflexivity|].
  intros [e He]. vm_compute in He. discriminate.
Qed.

(** C5, amended: on a content file with zero items, [get_random_posts]
    with [num_posts >= 1] resets the sent list of the category and returns
    the empty list normally, while [morning_post] and [weekend_post] fail
    with the [IndexError] of [random.choice], the tracker untouched. *)
Theorem empty_content_selection w :
  (∀ file_path num_posts post_type,
     files w !! file_path = Some (Some []) →
     1 ≤ num_posts →
     ∃ w', get_random_posts file_path num_posts post_type w = (Ok [], w') ∧
           already_sent_today w' !! post_type = Some []) ∧
  (files w !! "morning_data.json" = Some (Some []) →
     ∃ w', morning_post w = (Raise IndexError, w') ∧
           already_sent_today w' = already_sent_today w) ∧
  (files w !! "weekend_data.json" = Some (Some []) →
     ∃ w', weekend_post w = (Raise IndexError, w') ∧
           already_sent_today w' = already_sent_today w).
Proof.
  split_and!.
  - intros file_path num_posts post_type Hfile Hn. unfold get_random_posts.
    rewrite (bind_Ok _ _ _ _ _ (load_data_run _ _ _ Hfile)).
    unfold random_sample, tracker_set, tracker_get, save_sent_data, logging_info, emit.
    simpl. run. change (Z.of_nat (length [])) with 0.
    rewrite (proj2 (Z.ltb_lt 0 num_posts)) by lia.
    cbv beta iota. change (Z.of_nat (length [])) with 0.
    replace (Z.min num_posts 0) with 0 by lia. simpl.
    rewrite lookup_insert_eq. eexists. split; [reflexivity|]. simpl.
    apply lookup_insert_eq.
  - intros Hfile. unfold morning_post.
    rewrite (bind_Ok _ _ _ _ _ (load_data_run _ _ _ Hfile)). by eexists.
  - intros Hfile. unfold weekend_post.
    rewrite (bind_Ok _ _ _ _ _ (load_data_run _ _ _ Hfile)). by eexists.
Qed.

Lemma empty_content_selection_witness :
  (∃ w', get_random_posts "forex_data.json" 5 "forex" world3 = (Ok [], w') ∧
         already_sent_today w' !! "forex" = Some []) ∧
  (∃ w', morning_post world3 = (Raise IndexError, w') ∧
         already_sent_today w' = already_sent_today world3) ∧
  (∃ w', weekend_post world3 = (Raise IndexError, w') ∧
         already_sent_today w' = already_sent_today world3).
Proof.
  destruct (empty_content_selection world3) as (Hg & Hm & Hw). split_and!.
  - apply Hg; [reflexivity | lia].
  - apply Hm. reflexivity.
  - apply Hw. reflexivity.
Defined.

(** ** The daily loop *)

Lemma time_point_frame s m w r w' : time_point s m w = (r, w') → w' = w.
Proof.
  unfold time_point, datetime_now, datetime_replace_hour, datetime_add_minutes. run.
  destruct (datetime_valid (clock w)); [|by intros [= <- <-]].
  destruct ((0 <=? s) && (s <=? 23)); [|by intros [= <- <-]].
  destruct (_ || _); [by intros [= <- <-]|].
  destruct (datetime_valid _); by intros [= <- <-].
Qed.

Lemma comprehension_frame {A B} (l : list A) (f : A → M B) w r w' :
  (∀ x r w', f x w = (r, w') → w' = w) →
  comprehension l f w = (r, w') → w' = w.
Proof.
  intros Hf. revert r w'. induction l as [|x l IH]; intros r w'; simpl.
  - by intros [= <- <-].
  - unfold bind at 1. destruct (f x w) as [[y|e] w1] eqn:E1;
      pose proof (Hf _ _ _ E1) as ->; [|by intros [= <- <-]].
    unfold bind. destruct (comprehension l f w) as [[ys|e] w2] eqn:E2;
      pose proof (IH _ _ eq_refl) as ->; by intros [= <- <-].
Qed.

Lemma get_time_intervals_frame s e n w r w' :
  get_time_intervals s e n w = (r, w') → w' = w.
Proof.
  unfold get_time_intervals, floordiv. destruct (n =? 0); [by intros [= <- <-]|].
  unfold bind at 1. unfold ret at 1.
  apply comprehension_frame. intros i. apply time_point_frame.
Qed.

(** The dispatch loop of [schedule_post] never raises and changes nothing
    but the trace, the clock and the count of client calls. *)
Lemma schedule_loop_dispatched num_posts posts idx w :
  ∃ evs w',
    for_each (enumerate_from idx posts) (schedule_post_step num_posts) w = (Ok tt, w') ∧
    dispatched w evs w'.
Proof.
  revert idx w. induction posts as [|post posts IH]; intros idx w; simpl.
  - exists [], w. split; [done|apply dispatched_refl].
  - unfold logging_info, emit. run.
    match goal with |- context [asyncio_sleep _ ?w1] =>
      set (w1' := w1);
      destruct (asyncio_sleep_dispatched (idx * 1800) w1') as (w2 & -> & H2) end.
    assert (H1 : dispatched w [EvInfo (SchedulingPost (idx + 1) num_posts)] w1')
      by (by apply dispatched_emit).
    destruct (send_post_rec_dispatched (Z.to_nat 3) post (CHANNEL_ID w2) 5 w2)
      as (evs3 & w3 & E3 & H3).
    unfold send_post_default, send_post. rewrite E3.
    destruct (IH (idx + 1) w3) as (evs4 & w4 & -> & H4).
    eexists _, w4. split; [done|].
    eapply dispatched_trans; [exact H1|].
    eapply dispatched_trans; [exact H2|].
    eapply dispatched_trans; [exact H3|exact H4].
Qed.

(** Every run of [schedule_post]: either the selection raises, or it
    returns a batch and everything after it is dispatch. *)
Lemma schedule_post_cases post_type json_file num_posts w r w' :
  schedule_post post_type json_file num_posts w = (r, w') →
  let w0 := set_trace (trace w ++ [EvInfo (SchedulingPosts num_posts post_type)]) w in
  (∃ e, r = Raise e ∧
        get_random_posts json_file num_posts post_type w0 = (Raise e, w')) ∨
  (∃ posts w1 evs,
     get_random_posts json_file num_posts post_type w0 = (Ok posts, w1) ∧
     dispatched w1 evs w').
Proof.
  intros H w0. unfold schedule_post, logging_info, emit in H.
  unfold bind at 1 in H. unfold modify at 1 in H. fold w0 in H.
  destruct (get_random_posts json_file num_posts post_type w0) as [[posts|e] w1] eqn:E1.
  2: { rewrite (bind_Raise _ _ _ _ _ E1) in H. injection H as <- <-. left. eauto. }
  rewrite (bind_Ok _ _ _ _ _ E1) in H. right. exists posts, w1.
  destruct (get_time_intervals 8 20 num_posts w1) as [[intervals|e] w2] eqn:E2;
    pose proof (get_time_intervals_frame _ _ _ _ _ _ E2) as ->.
  2: { rewrite (bind_Raise _ _ _ _ _ E2) in H. injection H as <- <-.
       exists []. split; [done|apply dispatched_refl]. }
  rewrite (bind_Ok _ _ _ _ _ E2) in H.
  destruct (schedule_loop_dispatched num_posts posts 0 w1) as (evs & w3 & E3 & H3).
  rewrite E3 in H. injection H as <- <-. eauto.
Qed.

(** A sendable post goes out at the first attempt when the client is up. *)
Lemma send_post_rec_first_try retries post channel_id delay w :
  sendable post = true →
  api_ok w (api_calls w) = true →
  ∃ evs w',
    send_post_rec retries post channel_id delay w = (Ok tt, w') ∧
    dispatched w evs w' ∧ sleeps evs = [] ∧ length (requests evs) = 1%nat.
Proof.
  intros Hs Hup.
  assert (Htry : ∃ w', send_post_try post channel_id w = (Ok tt, w')).
  { revert Hs. unfold sendable, send_post_try, post_item, logging_info, api_call, emit.
    run. destruct (post !! "type") as [type|]; [|done].
    destruct (post !! "media") as [media|]; destruct (post !! "content") as [content|].
    all: repeat case_bool_decide; simpl; try done.
    all: rewrite Hup; eauto. }
  destruct Htry as [w' E].
  exists (drop (length (trace w)) (trace w')), w'.
  destruct (send_post_try_dispatched _ _ _ _ _ E) as (evs & Hd & Hsl & _ & _ & Hone).
  rewrite (dispatched_trace _ _ _ Hd), drop_app_length.
  split_and!; [|done|done|by apply Hone].
  destruct retries; simpl; unfold try_except; by rewrite E.
Qed.

(** With the client up and sendable posts, the dispatch loop sleeps
    [idx * 1800] seconds before the post of index [idx], and nothing else. *)
Lemma schedule_loop_sleeps num_posts posts idx w :
  (∀ n, api_ok w n = true) →
  Forall (λ post, sendable post = true) posts →
  ∃ evs w',
    for_each (enumerate_from idx posts) (schedule_post_step num_posts) w = (Ok tt, w') ∧
    dispatched w evs w' ∧
    sleeps evs = (λ i, i * 1800) <$> seqZ idx (Z.of_nat (length posts)).
Proof.
  intros Hup Hposts. revert idx w Hup.
  induction Hposts as [|post posts Hpost _ IH]; intros idx w Hup.
  - exists [], w. split_and!; [done|apply dispatched_refl|done].
  - simpl. unfold logging_info, emit. run.
    match goal with |- context [asyncio_sleep _ ?w1] =>
      set (w1' := w1);
      destruct (asyncio_sleep_dispatched (idx * 1800) w1') as (w2 & -> & H2) end.
    assert (H1 : dispatched w [EvInfo (SchedulingPost (idx + 1) num_posts)] w1')
      by (by apply dispatched_emit).
    pose proof (dispatched_trans _ _ _ _ _ H1 H2) as H12.
    assert (Hup2 : ∀ n, api_ok w2 n = true)
      by (intros n; by rewrite (dispatched_api_ok _ _ _ H12)).
    destruct (send_post_rec_first_try (Z.to_nat 3) post (CHANNEL_ID w2) 5 w2 Hpost (Hup2 _))
      as (evs3 & w3 & E3 & H3 & Hs3 & _).
    unfold send_post_default, send_post. rewrite E3.
    destruct (IH (idx + 1) w3) as (evs4 & w4 & -> & H4 & Hs4).
    { intros n. by rewrite (dispatched_api_ok _ _ _ H3). }
    eexists _, w4. split_and!; [done| |].
    + eapply dispatched_trans; [exact H12|].
      eapply dispatched_trans; [exact H3|exact H4].
    + rewrite !sleeps_app, Hs3, Hs4. simpl length.
      rewrite (seqZ_cons idx) by lia. simpl.
      by replace (Z.pred (Z.of_nat (S (length posts)))) with (Z.of_nat (length posts))
        by lia.
Qed.

(** C4 is not what the code does: on a batch of five posts that are all
    sent at the first attempt, the sleeps before the posts are 0, 1800,
    3600, 5400 and 7200 seconds, [idx * 1800] and not 1800 each; the gaps
    between consecutive dispatches grow from 30 minutes to 2 hours. *)
Theorem schedule_post_sleeps_grow :
  fst (schedule_post "forex" "forex_data.json" 5 world4) = Ok tt ∧
  sleeps (trace (snd (schedule_post "forex" "forex_data.json" 5 world4))) =
    [0; 1800; 3600; 5400; 7200] ∧
  clock (snd (schedule_post "forex" "forex_data.json" 5 world4)) - clock world4 =
    18000.
Proof. vm_compute. done. Qed.

(** C6 as the claim states it fails: with the forex file missing, two
    rounds of [schedule_all_posts] end in the first one with
    [FileNotFoundError]; the motivation file is never read and nothing is
    sent. *)
Lemma schedule_all_posts_forex_failure_stops :
  fst (schedule_all_posts 2 world5) = Raise (FileNotFoundError "forex_data.json") ∧
  trace (snd (schedule_all_posts 2 world5)) =
    [EvInfo StartingDailySchedule; EvInfo (SchedulingPosts 5 "forex");
     EvInfo (LoadingData "forex_data.json")] ∧
  EvInfo (LoadingData "motivation_data.json")
    ∉ trace (snd (schedule_all_posts 2 world5)).
Proof.
  vm_compute. split_and!; [done..|].
  intros H. repeat (apply elem_of_cons in H as [H|H]; [discriminate|]).
  by apply elem_of_nil in H.
Qed.

(** C6, amended: a failure of the forex cycle is not contained.  When
    [schedule_forex_posts] raises in some round, [schedule_all_posts]
    ends there with that exception, in the very world in which the forex
    cycle failed: the motivation cycle of that day and every later round
    do not run. *)
Theorem schedule_all_posts_propagates iterations w e w1 :
  schedule_forex_posts
    (set_trace (trace w ++ [EvInfo StartingDailySchedule]) w) = (Raise e, w1) →
  schedule_all_posts (S iterations) w = (Raise e, w1).
Proof.
  intros Hforex. unfold schedule_all_posts. simpl.
  unfold logging_info, emit. unfold bind at 1 2. unfold modify at 1.
  by rewrite (bind_Raise _ _ _ _ _ Hforex).
Qed.

Lemma schedule_all_posts_propagates_witness :
  schedule_all_posts 2 world5 =
  (Raise (FileNotFoundError "forex_data.json"),
   set_trace [EvInfo StartingDailySchedule; EvInfo (SchedulingPosts 5 "forex");
              EvInfo (LoadingData "forex_data.json")] world5).
Proof.
  apply (schedule_all_posts_propagates 1 world5). reflexivity.
Defined.

(** ** Claim on the tracker during dispatch *)



(** * Further properties of the module *)

(** ** [send_post] under every behaviour of the client *)

(** A sendable post makes the request of its type, once; the attempt
    succeeds or raises as the client answers. *)
Lemma send_post_try_sendable post channel_id w :
  sendable post = true →
  ∃ request evs w',
    request_of channel_id post = Some request ∧
    send_post_try post channel_id w =
      (if api_ok w (api_calls w) then Ok tt else Raise TelegramError, w') ∧
    dispatched w evs w' ∧
    sleeps evs = [] ∧ retries_logged evs = [] ∧ requests evs = [request] ∧
    (api_ok w (api_calls w) = true → last evs = Some (EvInfo PostSent)).
Proof.
  unfold sendable, request_of. intros Hs.
  destruct (send_post_try post channel_id w) as [r w'] eqn:E.
  destruct (send_post_try_dispatched _ _ _ _ _ E) as (evs & Hd & _).
  assert (Hevs : evs = drop (length (trace w)) (trace w'))
    by (by rewrite (dispatched_trace _ _ _ Hd), drop_app_length).
  revert E Hs. unfold send_post_try, post_item, logging_info, api_call, emit. run.
  destruct (post !! "type") as [type|]; [|done].
  destruct (post !! "media") as [media|]; destruct (post !! "content") as [content|].
  all: repeat case_bool_decide; simpl; try done.
  all: destruct (api_ok w (api_calls w)); intros [= <- <-] _.
  all: eexists _, evs, _; split_and!; try done; subst evs; simpl.
  all: rewrite ?drop_app_length; try done.
  all: by rewrite <- ?app_assoc, drop_app_length.
Qed.

Lemma length_backoff r d : length (backoff r d) = r.
Proof. revert d. induction r as [|r IH]; intros d; simpl; by rewrite ?IH. Qed.

Lemma send_post_rec_bounded retries post channel_id delay w :
  ∃ evs w',
    send_post_rec retries post channel_id delay w = (Ok tt, w') ∧
    dispatched w evs w' ∧
    sleeps evs `prefix_of` backoff retries delay ∧
    retries_logged evs = sleeps evs ∧
    (length (requests evs) ≤ S (length (sleeps evs)))%nat.
Proof.
  revert delay w. induction retries as [|retries IH]; intros delay w; simpl.
  all: unfold try_except.
  all: destruct (send_post_try post channel_id w) as [[[]|e] w1] eqn:E.
  all: apply send_post_try_dispatched in E as (evs1 & H1 & Hs1 & Hr1 & Hle1 & _).
  - exists evs1, w1. rewrite Hs1, Hr1.
    split_and!; try done; try apply prefix_nil; simpl; lia.
  - exists (evs1 ++ [EvError (FailedAfterRetries e)]). eexists.
    split; [reflexivity|]. rewrite sleeps_app, retries_logged_app, requests_app, Hs1, Hr1.
    split_and!; try done.
    + eapply dispatched_trans; [exact H1|]. by apply dispatched_emit.
    + rewrite length_app. simpl. lia.
  - exists evs1, w1. rewrite Hs1, Hr1.
    split_and!; try done; try apply prefix_nil; simpl; lia.
  - unfold logging_error, emit. run.
    match goal with |- context [asyncio_sleep _ ?w2] =>
      set (w2' := w2);
      destruct (asyncio_sleep_dispatched delay w2') as (w3 & -> & H3) end.
    assert (H2 : dispatched w1 [EvError (ErrorRetrying e delay)] w2')
      by (by apply dispatched_emit).
    destruct (IH (delay * 2) w3) as (evs4 & w4 & -> & H4 & Hs4 & Hr4 & Hle4).
    exists (evs1 ++ ([EvError (ErrorRetrying e delay)] ++ [EvSleep delay]) ++ evs4), w4.
    split; [reflexivity|]. split.
    { eapply dispatched_trans; [exact H1|].
      eapply dispatched_trans; [|exact H4]. by eapply dispatched_trans. }
    rewrite !sleeps_app, !retries_logged_app, !requests_app, Hs1, Hr1, Hr4. simpl.
    split_and!; try done.
    + by apply prefix_cons.
    + rewrite length_app. lia.
Qed.

(** X1: whatever the client does, [send_post] returns normally, announces
    a retry for every sleep, sleeps an initial part of the schedule
    [delay, 2 * delay, 4 * delay, ...] of [retries] delays, and makes at
    most one request more than it slept: never more than [retries + 1]. *)
Theorem send_post_bounded post channel_id retries delay w :
  ∃ evs w',
    send_post post channel_id retries delay w = (Ok tt, w') ∧
    trace w' = trace w ++ evs ∧
    sleeps evs `prefix_of` backoff (Z.to_nat retries) delay ∧
    retries_logged evs = sleeps evs ∧
    (length (requests evs) ≤ length (sleeps evs) + 1)%nat ∧
    (length (requests evs) ≤ Z.to_nat retries + 1)%nat ∧
    api_calls w' = (api_calls w + length (requests evs))%nat ∧
    clock w' = clock w + slept evs.
Proof.
  destruct (send_post_rec_bounded (Z.to_nat retries) post channel_id delay w)
    as (evs & w' & E & Hd & Hp & Hr & Hle).
  exists evs, w'. split_and!; try done; try apply Hd; [lia|].
  apply prefix_length in Hp. rewrite length_backoff in Hp. lia.
Qed.

(** X2: when the client fails [k] times and then answers, with [k] not
    above the retries, a sendable post is requested [k + 1] times, after
    sleeps of [delay, 2 * delay, ...] ([k] of them), and the last thing
    logged is the success: no retry follows a success. *)
Theorem send_post_recovers (k : nat) post channel_id retries delay w :
  sendable post = true →
  (k ≤ Z.to_nat retries)%nat →
  (∀ i, (i < k)%nat → api_ok w (api_calls w + i) = false) →
  api_ok w (api_calls w + k) = true →
  ∃ evs w',
    send_post post channel_id retries delay w = (Ok tt, w') ∧
    trace w' = trace w ++ evs ∧
    sleeps evs = backoff k delay ∧
    length (requests evs) = S k ∧
    last evs = Some (EvInfo PostSent).
Proof.
  intros Hs. unfold send_post. generalize (Z.to_nat retries). clear retries.
  intros retries Hk Hdown Hup.
  enough (∃ evs w',
    send_post_rec retries post channel_id delay w = (Ok tt, w') ∧
    dispatched w evs w' ∧ sleeps evs = backoff k delay ∧
    length (requests evs) = S k ∧ last evs = Some (EvInfo PostSent))
    as (evs & w' & E & Hd & ? & ? & ?); [exists evs, w'; split_and!; try done; apply Hd|].
  revert retries delay w Hk Hdown Hup.
  induction k as [|k IH]; intros retries delay w Hk Hdown Hup.
  - rewrite Nat.add_0_r in Hup.
    destruct (send_post_try_sendable post channel_id w Hs)
      as (request & evs & w' & _ & E & Hd & Hsl & _ & Hreq & Hlast).
    rewrite Hup in E. exists evs, w'. rewrite Hreq.
    split_and!; try done; [|by apply Hlast].
    destruct retries; simpl; unfold try_except; by rewrite E.
  - destruct retries as [|retries]; [lia|]. simpl. unfold try_except.
    destruct (send_post_try_sendable post channel_id w Hs)
      as (request & evs1 & w1 & _ & E & H1 & Hs1 & _ & Hreq1 & _).
    rewrite <- (Nat.add_0_r (api_calls w)), (Hdown 0%nat) in E by lia. rewrite E.
    unfold logging_error, emit. run.
    match goal with |- context [asyncio_sleep _ ?w2] =>
      set (w2' := w2);
      destruct (asyncio_sleep_dispatched delay w2') as (w3 & -> & H3) end.
    assert (H2 : dispatched w1 [EvError (ErrorRetrying TelegramError delay)] w2')
      by (by apply dispatched_emit).
    pose proof (dispatched_trans _ _ _ _ _ H1 (dispatched_trans _ _ _ _ _ H2 H3)) as H13.
    assert (Hcalls : api_calls w3 = S (api_calls w)).
    { rewrite (dispatched_api_calls _ _ _ H13), !requests_app, Hreq1. simpl. lia. }
    destruct (IH retries (delay * 2) w3) as (evs4 & w4 & -> & H4 & Hs4 & Hq4 & Hl4).
    + lia.
    + intros i Hi. rewrite (dispatched_api_ok _ _ _ H13), Hcalls.
      replace (S (api_calls w) + i)%nat with (api_calls w + S i)%nat by lia.
      apply Hdown. lia.
    + rewrite (dispatched_api_ok _ _ _ H13), Hcalls.
      by replace (S (api_calls w) + k)%nat with (api_calls w + S k)%nat by lia.
    + eexists _, w4. split; [reflexivity|]. split_and!.
      * eapply dispatched_trans; [exact H13|exact H4].
      * rewrite !sleeps_app, Hs1, Hs4. done.
      * rewrite !requests_app, !length_app, Hreq1, Hq4. simpl. lia.
      * rewrite last_app, Hl4. done.
Qed.

Lemma send_post_recovers_witness :
  ∃ evs w',
    send_post (text_post "hello") "@channel" 3 5 world8 = (Ok tt, w') ∧
    trace w' = trace world8 ++ evs ∧
    sleeps evs = backoff 2 5 ∧
    length (requests evs) = 3%nat ∧
    last evs = Some (EvInfo PostSent).
Proof.
  apply (send_post_recovers 2 (text_post "hello") "@channel" 3 5 world8).
  - reflexivity.
  - simpl. lia.
  - intros i Hi. simpl. apply bool_decide_eq_false_2. lia.
  - reflexivity.
Defined.

(** X3: a post whose type is none of [image], [video] and [text] is
    dropped without a word: no request is made, nothing is retried, and
    the log says that the post was sent. *)
Theorem send_post_unknown_type_dropped post channel_id retries delay w type :
  post !! "type" = Some type →
  type ≠ "image" → type ≠ "video" → type ≠ "text" →
  send_post post channel_id retries delay w =
  (Ok tt, set_trace (trace w ++ [EvInfo (SendingPost type channel_id); EvInfo PostSent]) w).
Proof.
  intros Ht H1 H2 H3. unfold send_post.
  assert (E : send_post_try post channel_id w =
    (Ok tt, set_trace (trace w ++ [EvInfo (SendingPost type channel_id); EvInfo PostSent]) w)).
  { unfold send_post_try, post_item, logging_info, emit. run. rewrite Ht.
    rewrite !bool_decide_eq_false_2 by done. simpl. by rewrite <- app_assoc. }
  destruct (Z.to_nat retries); simpl; unfold try_except; by rewrite E.
Qed.

Lemma send_post_unknown_type_dropped_witness :
  send_post {[ "type" := "audio"; "media" := "a.mp3" ]} "@channel" 3 5 world0 =
  (Ok tt, set_trace (trace world0 ++
     [EvInfo (SendingPost "audio" "@channel"); EvInfo PostSent]) world0).
Proof.
  apply (send_post_unknown_type_dropped _ "@channel" 3 5 world0 "audio");
    [reflexivity | done..].
Defined.

Lemma lacks_field_try post channel_id w :
  lacks_field post = true →
  ∃ key evs w',
    send_post_try post channel_id w = (Raise (KeyError key), w') ∧
    dispatched w evs w' ∧
    sleeps evs = [] ∧ retries_logged evs = [] ∧ requests evs = [].
Proof.
  unfold lacks_field, send_post_try, post_item, logging_info, emit. run.
  destruct (post !! "type") as [type|];
    [|intros _; exists "type", [], w; split_and!; try done; apply dispatched_refl].
  destruct (post !! "media") as [media|]; destruct (post !! "content") as [content|].
  all: repeat case_bool_decide; simpl; try done.
  all: intros _; eexists _, [EvInfo (SendingPost type channel_id)], _.
  all: split_and!; try done; by apply dispatched_emit.
Qed.

(** X4: a post without [type], or of a known type without the field its
    request reads, never reaches the client, and still goes through every
    retry and every sleep of the schedule before [send_post] gives up. *)
Theorem send_post_lacking_field post channel_id retries delay w :
  lacks_field post = true →
  ∃ evs key w',
    send_post post channel_id retries delay w = (Ok tt, w') ∧
    trace w' = trace w ++ evs ∧
    requests evs = [] ∧
    api_calls w' = api_calls w ∧
    sleeps evs = backoff (Z.to_nat retries) delay ∧
    last evs = Some (EvError (FailedAfterRetries (KeyError key))).
Proof.
  intros Hl. unfold send_post. generalize (Z.to_nat retries). clear retries.
  intros retries.
  enough (∃ evs key w',
    send_post_rec retries post channel_id delay w = (Ok tt, w') ∧
    dispatched w evs w' ∧ requests evs = [] ∧
    sleeps evs = backoff retries delay ∧
    last evs = Some (EvError (FailedAfterRetries (KeyError key))))
    as (evs & key & w' & E & Hd & Hq & ? & ?).
  { exists evs, key, w'. split_and!; try done; [apply Hd|].
    rewrite (dispatched_api_calls _ _ _ Hd), Hq. simpl. lia. }
  revert delay w. induction retries as [|retries IH]; intros delay w; simpl.
  all: unfold try_except.
  all: destruct (lacks_field_try post channel_id w Hl)
         as (key & evs1 & w1 & E & H1 & Hs1 & _ & Hq1); rewrite E.
  - exists (evs1 ++ [EvError (FailedAfterRetries (KeyError key))]), key. eexists.
    split; [reflexivity|]. split_and!.
    + eapply dispatched_trans; [exact H1|]. by apply dispatched_emit.
    + by rewrite requests_app, Hq1.
    + by rewrite sleeps_app, Hs1.
    + apply last_app_singleton.
  - unfold logging_error, emit. run.
    match goal with |- context [asyncio_sleep _ ?w2] =>
      set (w2' := w2);
      destruct (asyncio_sleep_dispatched delay w2') as (w3 & -> & H3) end.
    assert (H2 : dispatched w1 [EvError (ErrorRetrying (KeyError key) delay)] w2')
      by (by apply dispatched_emit).
    destruct (IH (delay * 2) w3) as (evs4 & key' & w4 & -> & H4 & Hq4 & Hs4 & Hl4).
    exists (evs1 ++ ([EvError (ErrorRetrying (KeyError key) delay)] ++ [EvSleep delay])
              ++ evs4), key', w4.
    split; [reflexivity|]. split_and!.
    + eapply dispatched_trans; [exact H1|].
      eapply dispatched_trans; [|exact H4]. by eapply dispatched_trans.
    + by rewrite !requests_app, Hq1, Hq4.
    + by rewrite !sleeps_app, Hs1, Hs4.
    + rewrite app_assoc, last_app, Hl4. done.
Qed.

Lemma send_post_lacking_field_witness :
  ∃ evs key w',
    send_post {[ "type" := "image"; "caption" := "no media" ]} "@channel" 3 5 world1
      = (Ok tt, w') ∧
    trace w' = trace world1 ++ evs ∧
    requests evs = [] ∧
    api_calls w' = api_calls world1 ∧
    sleeps evs = backoff (Z.to_nat 3) 5 ∧
    last evs = Some (EvError (FailedAfterRetries (KeyError key))).
Proof.
  apply (send_post_lacking_field _ "@channel" 3 5 world1). reflexivity.
Defined.

Lemma backoff_total r d :
  0 ≤ d →
  foldr (λ x acc, Z.max 0 x + acc) 0 (backoff r d) = d * (2 ^ Z.of_nat r - 1).
Proof.
  revert d. induction r as [|r IH]; intros d Hd; simpl backoff; simpl foldr.
  - simpl. lia.
  - rewrite IH by lia. rewrite Nat2Z.inj_succ, Z.pow_succ_r by lia. lia.
Qed.

(** X5: a send that fails on every attempt holds its caller for
    [delay * (2 ^ retries - 1)] seconds of sleep: 35 seconds with the
    defaults. *)
Theorem send_post_failing_wait post channel_id retries delay w :
  fails_every_attempt post channel_id w →
  0 ≤ delay →
  ∃ w',
    send_post post channel_id retries delay w = (Ok tt, w') ∧
    clock w' = clock w + delay * (2 ^ Z.of_nat (Z.to_nat retries) - 1).
Proof.
  intros Hfail Hd. unfold send_post.
  destruct (send_post_rec_failing (Z.to_nat retries) post channel_id delay w Hfail)
    as (evs & e & w' & E & Hdisp & Hs & _).
  exists w'. split; [done|].
  rewrite (dispatched_clock _ _ _ Hdisp). unfold slept. rewrite Hs.
  by rewrite backoff_total.
Qed.

Lemma send_post_failing_wait_witness :
  ∃ w',
    send_post (text_post "hello") "@channel" 3 5 world0 = (Ok tt, w') ∧
    clock w' = clock world0 + 5 * (2 ^ Z.of_nat (Z.to_nat 3) - 1).
Proof.
  apply (send_post_failing_wait (text_post "hello") "@channel" 3 5 world0); [|lia].
  apply api_down_fails; [reflexivity | intros n; reflexivity].
Defined.

(** ** [get_random_posts]: errors, batch size, duplicates *)

Lemma load_data_raise file_path w e w' :
  load_data file_path w = (Raise e, w') →
  (e = FileNotFoundError file_path ∧ files w !! file_path = None ∨
   e = JSONDecodeError file_path ∧ files w !! file_path = Some None).
Proof.
  unfold load_data, logging_info, emit. run. simpl.
  destruct (files w !! file_path) as [[d|]|]; intros [= <- <-]; auto.
Qed.

Lemma random_sample_raise {A} (population : list A) k w e w' :
  random_sample population k w = (Raise e, w') →
  e = ValueError ∧ w' = w ∧ ¬ (0 ≤ k ≤ Z.of_nat (length population)).
Proof.
  unfold random_sample.
  destruct (Z.leb_spec 0 k); destruct (Z.leb_spec k (Z.of_nat (length population)));
    simpl; try (intros [= <- <-]; split_and!; [done|done|lia]).
  destruct (sample_draw_run (Z.to_nat k) population w) as (sel & E & _); [lia|].
  by rewrite E.
Qed.

(** Every failure of [get_random_posts], with its cause; none of them has
    touched the tracker, the persistence file, the clock or the client. *)
Lemma get_random_posts_raise_inv file_path num_posts post_type w e w' :
  get_random_posts file_path num_posts post_type w = (Raise e, w') →
  already_sent_today w' = already_sent_today w ∧
  persistence_file w' = persistence_file w ∧
  api_calls w' = api_calls w ∧
  clock w' = clock w ∧
  (e = FileNotFoundError file_path ∧ files w !! file_path = None ∨
   e = JSONDecodeError file_path ∧ files w !! file_path = Some None ∨
   e = KeyError post_type ∧ already_sent_today w !! post_type = None ∨
   e = ValueError ∧ num_posts < 0).
Proof.
  unfold get_random_posts. fold (unsent post_type). intros H.
  destruct (load_data file_path w) as [[data|e1] w1] eqn:E1.
  2: { rewrite (bind_Raise _ _ _ _ _ E1) in H. injection H as <- <-.
       pose proof (load_data_frame _ _ _ _ E1) as ->.
       apply load_data_raise in E1. split_and!; try done. tauto. }
  rewrite (bind_Ok _ _ _ _ _ E1) in H.
  apply load_data_inv in E1 as [Hfile ->]. set (w1 := set_trace _ w) in *.
  destruct (already_sent_today w !! post_type) as [old|] eqn:Hkey.
  - rewrite (bind_Ok _ _ _ _ _ (unsent_run post_type data w1 old Hkey)) in H.
    set (available := filter _ data) in *.
    destruct (Z.ltb_spec (Z.of_nat (length available)) num_posts) as [Hreset|Hreset].
    + exfalso. unfold tracker_set, logging_info, emit in H. run in H.
      match type of H with context [random_sample data ?k ?w2] =>
        destruct (random_sample_run data k w2) as [sel E]; [lia|]; rewrite E in H end.
      unfold tracker_get, save_sent_data, logging_info, emit in H. run in H.
      simpl in H. by rewrite lookup_insert_eq in H.
    + run in H.
      destruct (random_sample available _ w1) as [[sel|e2] w2] eqn:E2.
      * exfalso. apply random_sample_inv in E2 as (_ & _ & _ & ->).
        unfold tracker_get, tracker_set, save_sent_data, logging_info, emit in H.
        run in H. simpl in H. by rewrite Hkey in H.
      * injection H as <- <-.
        apply random_sample_raise in E2 as (-> & -> & Hk).
        split_and!; try done. right. right. right. split; [done|lia].
  - pose proof (unsent_no_key post_type data w1 Hkey) as En.
    destruct data as [|p data].
    2: { rewrite (bind_Raise _ _ _ _ _ En) in H. injection H as <- <-.
         split_and!; try done. auto. }
    rewrite (bind_Ok _ _ _ _ _ En) in H.
    destruct (Z.ltb_spec (Z.of_nat (length (@nil Post))) num_posts) as [Hreset|Hreset].
    + exfalso. unfold tracker_set, logging_info, emit in H. run in H.
      match type of H with context [random_sample [] ?k ?w2] =>
        destruct (random_sample_run (@nil Post) k w2) as [sel E];
          [simpl in *; lia|]; rewrite E in H end.
      unfold tracker_get, save_sent_data, logging_info, emit in H. run in H.
      simpl in H. by rewrite lookup_insert_eq in H.
    + run in H.
      destruct (random_sample [] _ w1) as [[sel|e2] w2] eqn:E2.
      * apply random_sample_inv in E2 as (_ & _ & _ & ->).
        unfold tracker_get, tracker_set, save_sent_data, logging_info, emit in H.
        run in H. simpl in H. rewrite Hkey in H. injection H as <- <-.
        split_and!; try done. auto.
      * injection H as <- <-.
        apply random_sample_raise in E2 as (-> & -> & Hk).
        split_and!; try done. right. right. right. split; [done|]. simpl in *. lia.
Qed.






Lemma insert_touches_only (t : Tracker) category l :
  (∀ key, key ≠ category → <[category := l]> t !! key = t !! key) ∧
  dom t ⊆ dom (<[category := l]> t).
Proof.
  split.
  - intros key Hne. by rewrite lookup_insert_ne.
  - rewrite dom_insert_L. set_solver.
Qed.

Lemma get_random_posts_touches_only file_path num_posts post_type :
  touches_only post_type (get_random_posts file_path num_posts post_type).
Proof.
  intros w [sel|e] w' E.
  - apply get_random_posts_inv in E as (data & evs & _ & _ & _ & _ & -> & _).
    apply insert_touches_only.
  - apply get_random_posts_raise_inv in E as (-> & _). done.
Qed.

Lemma single_post_touches_only category data_file :
  touches_only category (single_post category data_file).
Proof.
  intros w r w' E. apply single_post_cases in E
    as [(e & _ & -> & _)|(data & post & evs & w2 & _ & _ & _ & _ & _ & Hd & ->)];
    [done|].
  simpl. rewrite (dispatched_sent _ _ _ Hd). simpl. apply insert_touches_only.
Qed.

(** X8: the categories are kept apart.  [get_random_posts],
    [schedule_post], [morning_post] and [weekend_post], however they end,
    leave the sent lists of all other categories as they were and drop no
    category from the tracker. *)
Theorem categories_kept_apart :
  (∀ file_path num_posts post_type,
     touches_only post_type (get_random_posts file_path num_posts post_type)) ∧
  (∀ post_type json_file num_posts,
     touches_only post_type (schedule_post post_type json_file num_posts)) ∧
  touches_only "morning" morning_post ∧
  touches_only "weekend" weekend_post.
Proof.
  split_and!.
  - apply get_random_posts_touches_only.
  - intros post_type json_file num_posts w r w' E.
    apply schedule_post_cases in E as [(e & _ & E)|(posts & w1 & evs & E & Hd)].
    + by apply get_random_posts_touches_only in E.
    + apply get_random_posts_touches_only in E.
      by rewrite (dispatched_sent _ _ _ Hd).
  - apply single_post_touches_only.
  - apply single_post_touches_only.
Qed.

Lemma categories_kept_apart_witness :
  already_sent_today (snd (morning_post world2)) !! "weekend" =
    already_sent_today world2 !! "weekend" ∧
  already_sent_today (snd (schedule_post "forex" "forex_data.json" 2 world1)) !! "morning" =
    already_sent_today world1 !! "morning".
Proof.
  destruct categories_kept_apart as (_ & Hs & Hm & _). split.
  - apply (Hm world2 (fst (morning_post world2))); [by destruct (morning_post world2)|done].
  - apply (Hs "forex" "forex_data.json" 2 world1
             (fst (schedule_post "forex" "forex_data.json" 2 world1)));
      [by destruct (schedule_post "forex" "forex_data.json" 2 world1)|done].
Defined.

(** X9: the size of a batch.  When the file holds at least [num_posts]
    posts, exactly [num_posts] are returned.  When it holds fewer, every
    call returns the whole file, in some order, and the sent list of the
    category is that batch. *)
Theorem get_random_posts_batch_size file_path num_posts post_type w data sel w' :
  files w !! file_path = Some (Some data) →
  get_random_posts file_path num_posts post_type w = (Ok sel, w') →
  (num_posts ≤ Z.of_nat (length data) → length sel = Z.to_nat num_posts) ∧
  (Z.of_nat (length data) < num_posts →
     sel ≡ₚ data ∧ already_sent_today w' !! post_type = Some sel).
Proof.
  intros Hfile E.
  apply get_random_posts_inv in E as (data' & evs & Hfile' & Hn & Hsub & Hlen & Hsent & _).
  rewrite Hfile in Hfile'. injection Hfile' as <-. cbv zeta in *.
  pose proof (length_filter (λ p, p ∉ already_sent_today w !!! post_type) data) as Hf.
  split; intros Hcase.
  - case_bool_decide; lia.
  - rewrite bool_decide_eq_true_2 in Hsub, Hlen, Hsent by lia. split.
    + apply submseteq_length_Permutation; [done|lia].
    + by rewrite Hsent, lookup_insert_eq.
Qed.

Lemma get_random_posts_batch_size_witness :
  (2 ≤ Z.of_nat (length [text_post "a"; text_post "b"; text_post "c"]) →
     length [text_post "b"; text_post "c"] = Z.to_nat 2) ∧
  (Z.of_nat (length [text_post "a"; text_post "b"; text_post "c"]) < 2 →
     [text_post "b"; text_post "c"] ≡ₚ [text_post "a"; text_post "b"; text_post "c"] ∧
     already_sent_today (snd (get_random_posts "forex_data.json" 2 "forex" world1))
       !! "forex" = Some [text_post "b"; text_post "c"]).
Proof.
  apply (get_random_posts_batch_size "forex_data.json" 2 "forex" world1).
  - reflexivity.
  - vm_compute. reflexivity.
Defined.

Lemma NoDup_submseteq_r {A} (l k : list A) : l ⊆+ k → NoDup k → NoDup l.
Proof.
  intros [k' Hk]%submseteq_Permutation Hnd. rewrite Hk in Hnd.
  by apply NoDup_app in Hnd as [? _].
Qed.

(** X10: duplicates.  When the file holds no post twice, no batch holds a
    post twice, and [get_random_posts] keeps two invariants of the sent
    list of its category: it holds no post twice, and it holds only posts
    of the file. *)
Theorem get_random_posts_no_duplicates file_path num_posts post_type w data sel w' :
  files w !! file_path = Some (Some data) →
  NoDup data →
  get_random_posts file_path num_posts post_type w = (Ok sel, w') →
  NoDup sel ∧
  (NoDup (already_sent_today w !!! post_type) →
     NoDup (already_sent_today w' !!! post_type)) ∧
  ((∀ p, p ∈ already_sent_today w !!! post_type → p ∈ data) →
     ∀ p, p ∈ already_sent_today w' !!! post_type → p ∈ data).
Proof.
  intros Hfile Hnd E.
  apply get_random_posts_inv in E as (data' & evs & Hfile' & Hn & Hsub & Hlen & Hsent & _).
  rewrite Hfile in Hfile'. injection Hfile' as <-. cbv zeta in *.
  rewrite Hsent, lookup_total_insert_eq.
  set (old := already_sent_today w !!! post_type) in *.
  assert (Hsel : ∀ p, p ∈ sel → p ∈ data).
  { intros p Hp. pose proof (elem_of_submseteq _ _ _ Hp Hsub) as Hp'.
    case_bool_decide; [done|]. by apply list_elem_of_filter in Hp' as [_ ?]. }
  case_bool_decide.
  - split_and!; [by eapply NoDup_submseteq_r|by eauto using NoDup_submseteq_r|auto].
  - assert (Hnew : NoDup sel).
    { eapply NoDup_submseteq_r; [exact Hsub|]. by apply NoDup_filter. }
    split_and!; [done| |].
    + intros Hold. apply NoDup_app. split_and!; [done| |done].
      intros p Hp Hp'. pose proof (elem_of_submseteq _ _ _ Hp' Hsub) as Hp''.
      by apply list_elem_of_filter in Hp'' as [? _].
    + intros Hold p [?|?]%elem_of_app; auto.
Qed.

Lemma get_random_posts_no_duplicates_witness :
  NoDup [text_post "b"; text_post "c"] ∧
  (NoDup (already_sent_today world1 !!! "forex") →
     NoDup (already_sent_today (snd (get_random_posts "forex_data.json" 2 "forex" world1))
              !!! "forex")) ∧
  ((∀ p, p ∈ already_sent_today world1 !!! "forex" →
         p ∈ [text_post "a"; text_post "b"; text_post "c"]) →
     ∀ p, p ∈ already_sent_today (snd (get_random_posts "forex_data.json" 2 "forex" world1))
              !!! "forex" →
          p ∈ [text_post "a"; text_post "b"; text_post "c"]).
Proof.
  apply (get_random_posts_no_duplicates "forex_data.json" 2 "forex" world1).
  - reflexivity.
  - apply (bool_decide_unpack _). vm_compute. exact I.
  - vm_compute. reflexivity.
Defined.

(** X11: two calls in a row.  When the second call finds enough unsent
    posts (so that it does not reset), none of its posts was returned by
    the first call. *)
Theorem get_random_posts_consecutive file_path post_type n1 n2 w sel1 w1 sel2 w2 data :
  files w !! file_path = Some (Some data) →
  get_random_posts file_path n1 post_type w = (Ok sel1, w1) →
  get_random_posts file_path n2 post_type w1 = (Ok sel2, w2) →
  n2 ≤ Z.of_nat (length (filter (λ p, p ∉ already_sent_today w1 !!! post_type) data)) →
  ∀ p, p ∈ sel2 → p ∉ sel1.
Proof.
  intros Hfile E1 E2 Hn p Hp2 Hp1.
  apply get_random_posts_inv in E1 as (data1 & evs1 & Hf1 & _ & _ & _ & Hsent1 & _ & Hs1).
  apply get_random_posts_inv in E2 as (data2 & evs2 & Hf2 & _ & Hsub2 & _).
  rewrite (selected_files _ _ _ Hs1), Hfile in Hf2. injection Hf2 as <-.
  cbv zeta in *. rewrite bool_decide_eq_false_2 in Hsub2 by lia.
  pose proof (elem_of_submseteq _ _ _ Hp2 Hsub2) as Hp.
  apply list_elem_of_filter in Hp as [Hnew _]. apply Hnew.
  rewrite Hsent1, lookup_total_insert_eq.
  case_bool_decide; [done|]. apply elem_of_app. by right.
Qed.

Lemma get_random_posts_consecutive_witness :
  (text_post "e" ∉ [text_post "a"; text_post "c"]) ∧
  (text_post "d" ∉ [text_post "a"; text_post "c"]).
Proof.
  pose proof (get_random_posts_consecutive "forex_data.json" "forex" 2 2 world4
           [text_post "a"; text_post "c"]
           (snd (get_random_posts "forex_data.json" 2 "forex" world4))
           [text_post "e"; text_post "d"]
           (snd (get_random_posts "forex_data.json" 2 "forex"
                   (snd (get_random_posts "forex_data.json" 2 "forex" world4))))
           [text_post "a"; text_post "b"; text_post "c"; text_post "d"; text_post "e"])
    as H.
  assert (Hall : ∀ p, p ∈ [text_post "e"; text_post "d"] →
                      p ∉ [text_post "a"; text_post "c"]).
  { apply H.
    - reflexivity.
    - vm_compute. reflexivity.
    - vm_compute. reflexivity.
    - vm_compute. discriminate. }
  split; apply Hall.
  - apply list_elem_of_here.
  - apply list_elem_of_further, list_elem_of_here.
Defined.

(** ** [morning_post] and [weekend_post] from one call to the next *)

Lemma single_post_after category data_file w w1 :
  single_post category data_file w = (Ok tt, w1) →
  ∃ data post,
    files w !! data_file = Some (Some data) ∧
    post ∈ data ∧ (post ∉ already_sent_today w !!! category) ∧
    files w1 = files w ∧
    already_sent_today w1 = <[category := [post]]> (already_sent_today w) ∧
    persistence_file w1 = Some (already_sent_today w1).
Proof.
  intros E. apply single_post_cases in E
    as [(e & [=] & _)|(data & post & evs & w2 & _ & Hf & Hin & Hnew & _ & Hd & ->)].
  exists data, post. split_and!; try done; simpl.
  - by rewrite (dispatched_files _ _ _ Hd).
  - by rewrite (dispatched_sent _ _ _ Hd).
Qed.

Lemma single_post_never_twice category data_file :
  never_twice_in_a_row category (single_post category data_file).
Proof.
  intros w w1 w2 E1 E2.
  apply single_post_after in E1 as (data1 & p1 & _ & _ & _ & _ & Hs1 & _).
  apply single_post_after in E2 as (data2 & p2 & _ & _ & Hnew & _ & Hs2 & _).
  exists p1, p2. rewrite Hs2, Hs1 in *. rewrite !lookup_insert_eq.
  split_and!; [done..|]. intros ->. apply Hnew.
  rewrite lookup_total_insert_eq. apply list_elem_of_here.
Qed.

(** X12: neither [morning_post] nor [weekend_post] posts the same post
    twice in a row: of two calls that return one after the other, the
    second chooses a post different from that of the first. *)
Theorem posts_never_twice_in_a_row :
  never_twice_in_a_row "morning" morning_post ∧
  never_twice_in_a_row "weekend" weekend_post.
Proof. split; apply single_post_never_twice. Qed.

Lemma posts_never_twice_in_a_row_witness :
  ∃ p1 p2,
    already_sent_today (snd (morning_post world2)) !! "morning" = Some [p1] ∧
    already_sent_today (snd (morning_post (snd (morning_post world2)))) !! "morning"
      = Some [p2] ∧
    p1 ≠ p2.
Proof.
  destruct posts_never_twice_in_a_row as [Hm _].
  apply (Hm world2); vm_compute; reflexivity.
Defined.

Lemma filter_none {A} (P : A → Prop) `{∀ x, Decision (P x)} (l : list A) :
  (∀ x, x ∈ l → ¬ P x) → filter P l = [].
Proof.
  induction l as [|x l IH]; intros Hl; [done|].
  rewrite filter_cons. rewrite decide_False by (apply Hl, list_elem_of_here).
  apply IH. intros y Hy. by apply Hl, list_elem_of_further.
Qed.

Lemma single_post_exhausted category data_file :
  exhausted_after_one data_file (single_post category data_file).
Proof.
  intros w w1 data p Hfile Hsame E.
  apply single_post_after in E as (data' & post & Hfile' & Hin & _ & Hf1 & Hs1 & _).
  rewrite Hfile in Hfile'. injection Hfile' as <-.
  assert (Hkey : already_sent_today w1 !! category = Some [post])
    by (by rewrite Hs1, lookup_insert_eq).
  rewrite <- Hf1 in Hfile. unfold single_post. fold (unsent category).
  rewrite (bind_Ok _ _ _ _ _ (load_data_run _ _ _ Hfile)).
  set (w2 := set_trace _ w1).
  rewrite (bind_Ok _ _ _ _ _ (unsent_run category data w2 [post] Hkey)).
  replace (filter (λ q, q ∉ [post]) data) with (@nil Post); [by eexists|].
  symmetry. apply filter_none. intros q Hq Hnot. apply Hnot.
  rewrite (Hsame q Hq), <- (Hsame post Hin). apply list_elem_of_here.
Qed.

(** X13: running out of posts is fatal.  On a file that holds one post
    (or the same post several times), a call of [morning_post] or
    [weekend_post] that returns is followed by a call that raises
    [IndexError], with the tracker as the first call left it. *)
Theorem posts_exhausted_after_one :
  exhausted_after_one "morning_data.json" morning_post ∧
  exhausted_after_one "weekend_data.json" weekend_post.
Proof. split; apply single_post_exhausted. Qed.

Lemma posts_exhausted_after_one_witness :
  ∃ w2,
    morning_post (snd (morning_post world9)) = (Raise IndexError, w2) ∧
    already_sent_today w2 = already_sent_today (snd (morning_post world9)).
Proof.
  destruct posts_exhausted_after_one as [Hm _].
  apply (Hm world9 _ [text_post "only"] (text_post "only")).
  - reflexivity.
  - intros q Hq. by apply list_elem_of_singleton in Hq.
  - vm_compute. reflexivity.
Defined.

Lemma single_post_returns_iff category data_file :
  returns_iff_unsent category data_file (single_post category data_file).
Proof.
  intros w. split.
  - intros [w' E]. pose proof E as E'.
    apply single_post_after in E as (data & post & Hfile & Hin & Hnew & _).
    destruct (already_sent_today w !! category) as [old|] eqn:Hkey.
    + exists data, old, post. rewrite (lookup_total_correct _ _ _ Hkey) in Hnew. done.
    + exfalso. revert E'. unfold single_post. fold (unsent category).
      rewrite (bind_Ok _ _ _ _ _ (load_data_run _ _ _ Hfile)).
      set (w1 := set_trace _ w).
      pose proof (unsent_no_key category data w1 Hkey) as En.
      destruct data as [|q data]; [by apply elem_of_nil in Hin|].
      by rewrite (bind_Raise _ _ _ _ _ En).
  - intros (data & old & p & Hfile & Hkey & Hin & Hnew).
    eapply single_post_returns; [done..|].
    intros Hnil. assert (Hp : p ∈ filter (λ q, q ∉ old) data)
      by (by apply list_elem_of_filter).
    rewrite Hnil in Hp. by apply elem_of_nil in Hp.
Qed.

(** X14: [morning_post] and [weekend_post] return normally exactly when
    their file is readable, their category is in the tracker, and the
    file holds a post that is not in the sent list of the category. *)
Theorem posts_return_iff_unsent :
  returns_iff_unsent "morning" "morning_data.json" morning_post ∧
  returns_iff_unsent "weekend" "weekend_data.json" weekend_post.
Proof. split; apply single_post_returns_iff. Qed.

Lemma posts_return_iff_unsent_witness :
  ∃ w', morning_post world2 = (Ok tt, w').
Proof.
  destruct posts_return_iff_unsent as [Hm _]. apply (Hm world2).
  exists [text_post "a"; text_post "b"],
         [text_post "a"; text_post "old"; text_post "older"], (text_post "b").
  split_and!; [reflexivity | reflexivity | |].
  - apply list_elem_of_further, list_elem_of_here.
  - apply (bool_decide_unpack _). vm_compute. exact I.
Defined.

(** ** [get_time_intervals] inside one day *)

Lemma slots_in_window s e n i :
  s ≤ e → 1 ≤ n → 0 ≤ i < n →
  let step := ((e - s) * 60) `div` n in
  0 ≤ step ∧ 0 ≤ i * step ∧ i * step ≤ (e - s) * 60 ∧
  (s < e → i * step < (e - s) * 60).
Proof.
  intros Hse Hn Hi step.
  assert (Hstep : 0 ≤ step) by (apply Z.div_pos; lia).
  assert (Hfloor : n * step ≤ (e - s) * 60) by (apply Z.mul_div_le; lia).
  assert (Hi0 : 0 ≤ i * step) by (apply Z.mul_nonneg_nonneg; lia).
  assert (Hi1 : i * step ≤ (n - 1) * step) by (apply Z.mul_le_mono_nonneg_r; lia).
  assert (Hn1 : (n - 1) * step = n * step - step) by lia.
  split_and!; [done|done|lia|]. intros Hlt.
  destruct (Z.eq_dec step 0) as [Hz|]; [rewrite Hz in *|]; lia.
Qed.

Lemma get_time_intervals_same_day w s e n :
  datetime_valid (clock w) = true →
  0 ≤ s ≤ 23 → s ≤ e ≤ 24 → 1 ≤ n →
  get_time_intervals s e n w =
  (Ok (map (λ i, hhmm (s * 60 + i * (((e - s) * 60) `div` n))) (seqZ 0 n)), w).
Proof.
  intros Hc Hs He Hn. apply get_time_intervals_ok; [done..|].
  pose proof (midnight_range w Hc).
  destruct (slots_in_window s e n (n - 1)) as (_ & ? & ? & Hlt); [lia..|].
  unfold datetime_valid, DATETIME_END, midnight.
  apply andb_true_iff. rewrite Z.leb_le, Z.ltb_lt.
  destruct (Z.eq_dec s e) as [->|]; [|specialize (Hlt ltac:(lia))]; lia.
Qed.

(** X15: for a start hour in 0..23, an end hour from the start hour up to
    24 and at least one post, [get_time_intervals] returns the times
    [start + i * step] for [i = 0 .. num_posts - 1], with
    [step = (end - start) * 60 // num_posts] minutes.  The list does not
    depend on the day of the call; every time lies in the same day, from
    the start hour on and, when the window is not empty, strictly before
    the end hour: the end hour itself is never a slot. *)
Theorem get_time_intervals_in_window w start_hour end_hour num_posts :
  datetime_valid (clock w) = true →
  0 ≤ start_hour ≤ 23 →
  start_hour ≤ end_hour ≤ 24 →
  1 ≤ num_posts →
  let step := ((end_hour - start_hour) * 60) `div` num_posts in
  get_time_intervals start_hour end_hour num_posts w =
    (Ok (map (λ i, hhmm (start_hour * 60 + i * step)) (seqZ 0 num_posts)), w) ∧
  ∀ i, 0 ≤ i < num_posts →
    start_hour * 60 ≤ start_hour * 60 + i * step < 1440 ∧
    (start_hour < end_hour → start_hour * 60 + i * step < end_hour * 60).
Proof.
  intros Hc Hs He Hn step. split; [by apply get_time_intervals_same_day|].
  intros i Hi.
  destruct (slots_in_window start_hour end_hour num_posts i) as (_ & ? & ? & Hlt);
    [lia..|].
  fold step in Hlt |- *. split; [|lia].
  destruct (Z.eq_dec start_hour end_hour) as [->|]; [|lia].
  assert (step = 0) as -> by (unfold step; by rewrite Z.sub_diag). lia.
Qed.

Lemma get_time_intervals_in_window_witness :
  let step := ((20 - 8) * 60) `div` 5 in
  get_time_intervals 8 20 5 world0 =
    (Ok (map (λ i, hhmm (8 * 60 + i * step)) (seqZ 0 5)), world0) ∧
  ∀ i, 0 ≤ i < 5 →
    8 * 60 ≤ 8 * 60 + i * step < 1440 ∧ (8 < 20 → 8 * 60 + i * step < 20 * 60).
Proof.
  apply (get_time_intervals_in_window world0 8 20 5); [reflexivity | lia..].
Defined.

(** ** [schedule_post] and one round of [schedule_all_posts] *)

(** X16: [schedule_post] with [num_posts = 0] does not just do nothing.
    With a readable file and the category in the tracker, the selection
    returns the empty batch and writes the persistence file, and then the
    division in [get_time_intervals] raises [ZeroDivisionError]; no
    request is made and the sent list keeps its posts. *)
Theorem schedule_post_zero post_type json_file w data old :
  files w !! json_file = Some (Some data) →
  already_sent_today w !! post_type = Some old →
  ∃ w',
    schedule_post post_type json_file 0 w = (Raise ZeroDivisionError, w') ∧
    persistence_file w' = Some (already_sent_today w') ∧
    already_sent_today w' !! post_type = Some old ∧
    api_calls w' = api_calls w.
Proof.
  intros Hfile Hkey. unfold schedule_post, logging_info, emit.
  unfold bind at 1. unfold modify at 1. set (w0 := set_trace _ w).
  destruct (get_random_posts_returns json_file 0 post_type w0 data old)
    as (sel & w1 & E); [done..|lia|].
  rewrite (bind_Ok _ _ _ _ _ E).
  apply get_random_posts_inv in E as (data' & evs & _ & _ & _ & Hlen & Hsent & Hpers & Hs).
  cbv zeta in *.
  pose proof (length_filter (λ p, p ∉ already_sent_today w0 !!! post_type) data') as Hf.
  rewrite bool_decide_eq_false_2 in Hlen, Hsent by lia.
  assert (sel = []) as -> by (apply nil_length_inv; lia).
  exists w1. split_and!; [done|done| |].
  - rewrite Hsent, lookup_insert_eq, app_nil_r.
    by rewrite (lookup_total_correct (already_sent_today w0) post_type old Hkey).
  - by rewrite (selected_api_calls _ _ _ Hs).
Qed.

Lemma schedule_post_zero_witness :
  ∃ w',
    schedule_post "forex" "forex_data.json" 0 world1 = (Raise ZeroDivisionError, w') ∧
    persistence_file w' = Some (already_sent_today w') ∧
    already_sent_today w' !! "forex" = Some [text_post "a"] ∧
    api_calls w' = api_calls world1.
Proof.
  apply (schedule_post_zero "forex" "forex_data.json" world1
           [text_post "a"; text_post "b"; text_post "c"] [text_post "a"]);
    reflexivity.
Defined.

Lemma send_post_rec_first_try_request retries post channel_id delay w :
  sendable post = true →
  api_ok w (api_calls w) = true →
  ∃ request evs w',
    request_of channel_id post = Some request ∧
    send_post_rec retries post channel_id delay w = (Ok tt, w') ∧
    dispatched w evs w' ∧ sleeps evs = [] ∧ requests evs = [request].
Proof.
  intros Hs Hup.
  destruct (send_post_try_sendable post channel_id w Hs)
    as (request & evs & w' & Hreq & E & Hd & Hsl & _ & Hq & _).
  rewrite Hup in E. exists request, evs, w'. split_and!; try done.
  destruct retries; simpl; unfold try_except; by rewrite E.
Qed.

Lemma slept_arithmetic idx (k : nat) :
  0 ≤ idx →
  foldr (λ d acc, Z.max 0 d + acc) 0 ((λ i, i * 1800) <$> seqZ idx (Z.of_nat k)) =
  900 * Z.of_nat k * (2 * idx + Z.of_nat k - 1).
Proof.
  revert idx. induction k as [|k IH]; intros idx Hidx; [simpl; lia|].
  rewrite seqZ_cons by lia. simpl fmap. simpl foldr.
  replace (Z.pred (Z.of_nat (S k))) with (Z.of_nat k) by lia.
  replace (Z.succ idx) with (idx + 1) by lia.
  rewrite IH by lia. lia.
Qed.

(** With the client up, the dispatch loop requests every post of a batch
    of sendable posts once, in order. *)
Lemma schedule_loop_requests num_posts posts idx w :
  (∀ n, api_ok w n = true) →
  Forall (λ post, sendable post = true) posts →
  ∃ evs w',
    for_each (enumerate_from idx posts) (schedule_post_step num_posts) w = (Ok tt, w') ∧
    dispatched w evs w' ∧
    sleeps evs = (λ i, i * 1800) <$> seqZ idx (Z.of_nat (length posts)) ∧
    Forall2 (λ post request, request_of (CHANNEL_ID w) post = Some request)
            posts (requests evs).
Proof.
  intros Hup Hposts. revert idx w Hup.
  induction Hposts as [|post posts Hpost _ IH]; intros idx w Hup.
  - exists [], w. split_and!; [done|apply dispatched_refl|done|constructor].
  - simpl. unfold logging_info, emit. run.
    match goal with |- context [asyncio_sleep _ ?w1] =>
      set (w1' := w1);
      destruct (asyncio_sleep_dispatched (idx * 1800) w1') as (w2 & -> & H2) end.
    assert (H1 : dispatched w [EvInfo (SchedulingPost (idx + 1) num_posts)] w1')
      by (by apply dispatched_emit).
    pose proof (dispatched_trans _ _ _ _ _ H1 H2) as H12.
    assert (Hup2 : ∀ n, api_ok w2 n = true)
      by (intros n; by rewrite (dispatched_api_ok _ _ _ H12)).
    destruct (send_post_rec_first_try_request (Z.to_nat 3) post (CHANNEL_ID w2) 5 w2
                Hpost (Hup2 _)) as (request & evs3 & w3 & Hreq & E3 & H3 & Hs3 & Hq3).
    unfold send_post_default, send_post. rewrite E3.
    destruct (IH (idx + 1) w3) as (evs4 & w4 & -> & H4 & Hs4 & Hq4).
    { intros n. by rewrite (dispatched_api_ok _ _ _ H3). }
    eexists _, w4. split_and!; [done| | |].
    + eapply dispatched_trans; [exact H12|].
      eapply dispatched_trans; [exact H3|exact H4].
    + rewrite !sleeps_app, Hs3, Hs4. simpl length.
      rewrite (seqZ_cons idx) by lia. simpl.
      by replace (Z.pred (Z.of_nat (S (length posts)))) with (Z.of_nat (length posts))
        by lia.
    + rewrite !requests_app, Hq3. simpl. constructor.
      * by rewrite <- (dispatched_channel _ _ _ H12).
      * by rewrite <- (dispatched_channel _ _ _ H12), <- (dispatched_channel _ _ _ H3).
Qed.

Lemma schedule_post_touches_only post_type json_file num_posts :
  touches_only post_type (schedule_post post_type json_file num_posts).
Proof.
  intros w r w' E.
  apply schedule_post_cases in E as [(e & _ & E)|(posts & w1 & evs & E & Hd)].
  - by apply get_random_posts_touches_only in E.
  - apply get_random_posts_touches_only in E.
    by rewrite (dispatched_sent _ _ _ Hd).
Qed.

(** A run of [schedule_post] in which nothing goes wrong. *)
Lemma schedule_post_happy post_type json_file num_posts w data old :
  files w !! json_file = Some (Some data) →
  Forall (λ post, sendable post = true) data →
  already_sent_today w !! post_type = Some old →
  1 ≤ num_posts →
  (∀ n, api_ok w n = true) →
  datetime_valid (clock w) = true →
  ∃ posts w1 evs w',
    get_random_posts json_file num_posts post_type
      (set_trace (trace w ++ [EvInfo (SchedulingPosts num_posts post_type)]) w)
      = (Ok posts, w1) ∧
    schedule_post post_type json_file num_posts w = (Ok tt, w') ∧
    dispatched w1 evs w' ∧
    length posts = Z.to_nat (Z.min num_posts (Z.of_nat (length data))) ∧
    sleeps evs = (λ i, i * 1800) <$> seqZ 0 (Z.of_nat (length posts)) ∧
    Forall2 (λ post request, request_of (CHANNEL_ID w) post = Some request)
            posts (requests evs) ∧
    files w' = files w ∧ api_ok w' = api_ok w ∧
    api_calls w' = (api_calls w + length posts)%nat ∧
    clock w' = clock w + 900 * Z.of_nat (length posts) * (Z.of_nat (length posts) - 1).
Proof.
  intros Hfile Hdata Hkey Hn Hup Hc.
  unfold schedule_post, logging_info, emit.
  unfold bind at 1. unfold modify at 1. set (w0 := set_trace _ w).
  destruct (get_random_posts_returns json_file num_posts post_type w0 data old)
    as (posts & w1 & E); [done..|lia|].
  rewrite (bind_Ok _ _ _ _ _ E).
  pose proof (get_random_posts_inv _ _ _ _ _ _ E)
    as (data' & evs0 & Hfile' & _ & Hsub & Hlen & _ & _ & Hs).
  change (files w0) with (files w) in Hfile'. rewrite Hfile in Hfile'.
  injection Hfile' as <-. cbv zeta in *.
  pose proof (length_filter (λ p, p ∉ already_sent_today w0 !!! post_type) data) as Hf.
  assert (Hposts : Forall (λ post, sendable post = true) posts).
  { apply Forall_forall. intros p Hp.
    pose proof (elem_of_submseteq _ _ _ Hp Hsub) as Hp'.
    rewrite Forall_forall in Hdata. apply Hdata.
    case_bool_decide; [done|]. by apply list_elem_of_filter in Hp' as [_ ?]. }
  assert (Hk : length posts = Z.to_nat (Z.min num_posts (Z.of_nat (length data))))
    by (case_bool_decide; lia).
  assert (Hc1 : datetime_valid (clock w1) = true)
    by (by rewrite (selected_clock _ _ _ Hs)).
  rewrite (bind_Ok _ _ _ _ _
    (get_time_intervals_same_day w1 8 20 num_posts Hc1 ltac:(lia) ltac:(lia) Hn)).
  destruct (schedule_loop_requests num_posts posts 0 w1) as (evs & w' & E' & Hd & Hsl & Hq).
  { intros n. rewrite (selected_api_ok _ _ _ Hs). apply Hup. }
  { done. }
  exists posts, w1, evs, w'. rewrite E'.
  rewrite (selected_channel _ _ _ Hs) in Hq.
  split_and!; try done.
  - by rewrite (dispatched_files _ _ _ Hd), (selected_files _ _ _ Hs).
  - by rewrite (dispatched_api_ok _ _ _ Hd), (selected_api_ok _ _ _ Hs).
  - rewrite (dispatched_api_calls _ _ _ Hd), (selected_api_calls _ _ _ Hs).
    by rewrite (Forall2_length _ _ _ Hq).
  - rewrite (dispatched_clock _ _ _ Hd), (selected_clock _ _ _ Hs).
    unfold slept. rewrite Hsl, slept_arithmetic by lia. simpl. lia.
Qed.

(** X17: when nothing goes wrong (readable file of sendable posts,
    category in the tracker, client up), [schedule_post] returns normally;
    after the selection it requests every selected post exactly once, in
    the order of the selection, sleeping [idx * 1800] seconds before the
    post of index [idx], so that a batch of [k] posts takes
    [900 * k * (k - 1)] seconds. *)
Theorem schedule_post_dispatches_batch post_type json_file num_posts w data old :
  files w !! json_file = Some (Some data) →
  Forall (λ post, sendable post = true) data →
  already_sent_today w !! post_type = Some old →
  1 ≤ num_posts →
  (∀ n, api_ok w n = true) →
  datetime_valid (clock w) = true →
  ∃ posts w1 evs w',
    get_random_posts json_file num_posts post_type
      (set_trace (trace w ++ [EvInfo (SchedulingPosts num_posts post_type)]) w)
      = (Ok posts, w1) ∧
    schedule_post post_type json_file num_posts w = (Ok tt, w') ∧
    trace w' = trace w1 ++ evs ∧
    Forall2 (λ post request, request_of (CHANNEL_ID w) post = Some request)
            posts (requests evs) ∧
    sleeps evs = (λ i, i * 1800) <$> seqZ 0 (Z.of_nat (length posts)) ∧
    clock w' = clock w + 900 * Z.of_nat (length posts) * (Z.of_nat (length posts) - 1).
Proof.
  intros Hfile Hdata Hkey Hn Hup Hc.
  destruct (schedule_post_happy post_type json_file num_posts w data old)
    as (posts & w1 & evs & w' & E & Hrun & Hd & _ & Hs & Hq & _ & _ & _ & Hclock);
    [done..|].
  exists posts, w1, evs, w'. split_and!; try done. apply Hd.
Qed.

Lemma schedule_post_dispatches_batch_witness :
  ∃ posts w1 evs w',
    get_random_posts "forex_data.json" 5 "forex"
      (set_trace (trace world4 ++ [EvInfo (SchedulingPosts 5 "forex")]) world4)
      = (Ok posts, w1) ∧
    schedule_post "forex" "forex_data.json" 5 world4 = (Ok tt, w') ∧
    trace w' = trace w1 ++ evs ∧
    Forall2 (λ post request, request_of (CHANNEL_ID world4) post = Some request)
            posts (requests evs) ∧
    sleeps evs = (λ i, i * 1800) <$> seqZ 0 (Z.of_nat (length posts)) ∧
    clock w' = clock world4 + 900 * Z.of_nat (length posts) * (Z.of_nat (length posts) - 1).
Proof.
  apply (schedule_post_dispatches_batch "forex" "forex_data.json" 5 world4
           [text_post "a"; text_post "b"; text_post "c"; text_post "d"; text_post "e"] []).
  - reflexivity.
  - repeat constructor.
  - reflexivity.
  - lia.
  - intros n. reflexivity.
  - reflexivity.
Defined.

(** X18: a round of the daily loop is longer than a day.  When nothing
    goes wrong and both files hold at least five sendable posts, one round
    of [schedule_all_posts] makes ten requests and ends 122400 seconds
    after it began: five hours for each batch and the sleep of 24 hours.
    The next round starts 34 hours after this one. *)
Theorem schedule_all_posts_round w forex motivation sent_forex sent_motivation :
  files w !! "forex_data.json" = Some (Some forex) →
  files w !! "motivation_data.json" = Some (Some motivation) →
  Forall (λ post, sendable post = true) forex →
  Forall (λ post, sendable post = true) motivation →
  (5 ≤ length forex)%nat →
  (5 ≤ length motivation)%nat →
  already_sent_today w !! "forex" = Some sent_forex →
  already_sent_today w !! "motivation" = Some sent_motivation →
  (∀ n, api_ok w n = true) →
  datetime_valid (clock w) = true →
  datetime_valid (clock w + 18000) = true →
  ∃ w',
    schedule_all_posts 1 w = (Ok tt, w') ∧
    clock w' = clock w + 122400 ∧
    api_calls w' = (api_calls w + 10)%nat.
Proof.
  intros Hf Hm Hsf Hsm Hlf Hlm Hkf Hkm Hup Hc Hc'.
  unfold schedule_all_posts, schedule_forex_posts, schedule_motivation_posts.
  simpl while_true.
  set (w0 := set_trace (trace w ++ [EvInfo StartingDailySchedule]) w).
  destruct (schedule_post_happy "forex" "forex_data.json" 5 w0 forex sent_forex)
    as (posts1 & w1 & evs1 & w2 & E1 & Hrun1 & _ & Hk1 & _ & _ & Hfiles2 & Hok2
          & Hcalls2 & Hclock2); [done..|lia|done|done|].
  assert (Hlen1 : length posts1 = 5%nat) by lia.
  rewrite Hlen1 in *.
  assert (Hkm2 : already_sent_today w2 !! "motivation" = Some sent_motivation).
  { destruct (schedule_post_touches_only "forex" "forex_data.json" 5 w0 _ _ Hrun1)
      as [Hother _].
    by rewrite Hother. }
  destruct (schedule_post_happy "motivation" "motivation_data.json" 5 w2
              motivation sent_motivation)
    as (posts2 & w3 & evs3 & w4 & E2 & Hrun2 & _ & Hk2 & _ & _ & _ & _
          & Hcalls4 & Hclock4).
  - by rewrite Hfiles2.
  - done.
  - done.
  - lia.
  - intros n. rewrite Hok2. apply Hup.
  - rewrite Hclock2. exact Hc'.
  - assert (Hlen2 : length posts2 = 5%nat) by lia.
    rewrite Hlen2 in *.
    destruct (asyncio_sleep_dispatched (24 * 3600) w4) as (w5 & E5 & H5).
    exists w5. split_and!.
    + assert (Hlog : logging_info StartingDailySchedule w = (Ok tt, w0)) by done.
      rewrite (bind_Ok _ (λ _, ret tt) w tt w5); [done|].
      by rewrite (bind_Ok _ _ _ _ _ Hlog), (bind_Ok _ _ _ _ _ Hrun1),
        (bind_Ok _ _ _ _ _ Hrun2).
    + rewrite (dispatched_clock _ _ _ H5), Hclock4, Hclock2.
      change (clock w0) with (clock w). unfold slept. simpl. lia.
    + rewrite (dispatched_api_calls _ _ _ H5), Hcalls4, Hcalls2.
      change (api_calls w0) with (api_calls w). simpl. lia.
Qed.

Lemma schedule_all_posts_round_witness :
  ∃ w',
    schedule_all_posts 1 world10 = (Ok tt, w') ∧
    clock w' = clock world10 + 122400 ∧
    api_calls w' = (api_calls world10 + 10)%nat.
Proof.
  apply (schedule_all_posts_round world10
           [text_post "a"; text_post "b"; text_post "c"; text_post "d"; text_post "e"]
           [text_post "p"; text_post "q"; text_post "r"; text_post "s"; text_post "t"]
           [] []).
  - reflexivity.
  - reflexivity.
  - repeat constructor.
  - repeat constructor.
  - simpl. lia.
  - simpl. lia.
  - reflexivity.
  - reflexivity.
  - intros n. reflexivity.
  - reflexivity.
  - reflexivity.
Defined.

(** ** Restarting the process *)










(** ** The polling loops *)

Lemma morning_poll_poll :
  morning_poll =
  poll (λ now, (datetime_hour now =? 7) && (datetime_minute now =? 0))
       SendingMorningPost morning_post.
Proof. reflexivity. Qed.

Lemma weekend_poll_poll :
  weekend_poll =
  poll (λ now, (datetime_weekday now =? 4) && (datetime_hour now =? 19)
               && (datetime_minute now =? 45))
       SendingWeekendPost weekend_post.
Proof. reflexivity. Qed.

Lemma morning_minute_cond t :
  (datetime_hour t =? 7) && (datetime_minute t =? 0) = true ↔ morning_minute t.
Proof. unfold morning_minute. rewrite andb_true_iff, !Z.eqb_eq. done. Qed.

Lemma weekend_minute_cond t :
  (datetime_weekday t =? 4) && (datetime_hour t =? 19) && (datetime_minute t =? 45) = true
  ↔ weekend_minute t.
Proof. unfold weekend_minute. rewrite !andb_true_iff, !Z.eqb_eq. tauto. Qed.

(** Every round of a polling loop, by the clock and by what the post did. *)
Lemma poll_cases cond m post lw r lw' :
  poll cond m post lw = (r, lw') →
  let w := world lw in
  (datetime_valid (clock w) = false ∧ r = Raise ValueError ∧ lw' = lw) ∨
  (datetime_valid (clock w) = true ∧ cond (clock w) = false ∧
   r = Ok tt ∧ lw' = mkLoopWorld (snd (asyncio_sleep 60 w)) (loop_log lw)) ∨
  (datetime_valid (clock w) = true ∧ cond (clock w) = true ∧
   ∃ ew w1, post w = (ew, w1) ∧
     match ew with
     | Raise e =>
         r = Raise e ∧
         lw' = mkLoopWorld w1 (loop_log lw ++ [(length (trace w), m)])
     | Ok _ =>
         r = Ok tt ∧
         lw' = mkLoopWorld (snd (asyncio_sleep 60 w1))
                 (loop_log lw ++ [(length (trace w), m)])
     end).
Proof.
  intros E w. revert E. unfold poll, loop_bind, lift, datetime_now. run. fold w.
  destruct (datetime_valid (clock w)) eqn:Hc; simpl.
  2: { intros [= <- <-]. left. by destruct lw. }
  destruct (cond (clock w)) eqn:Hcond.
  - unfold loop_info. simpl. fold w.
    destruct (post w) as [[[]|e] w1] eqn:Hpost; simpl.
    + intros [= <- <-]. right. right. split_and!; try done. by exists (Ok tt), w1.
    + intros [= <- <-]. right. right. split_and!; try done. by exists (Raise e), w1.
  - unfold loop_ret. simpl. fold w. intros [= <- <-]. right. left. done.
Qed.

Lemma slept_prefix_default evs :
  sleeps evs `prefix_of` backoff 3 5 → 0 ≤ slept evs ≤ 35.
Proof.
  unfold slept. intros [k Hk]. simpl in Hk.
  destruct (sleeps evs) as [|a [|b [|c [|d l]]]]; simpl in Hk; simplify_eq; simpl; lia.
Qed.

(** A post of [morning_post] or [weekend_post] holds the loop for at most
    the 35 seconds of the retries. *)
Lemma single_post_clock category data_file w w' :
  single_post category data_file w = (Ok tt, w') →
  clock w ≤ clock w' ≤ clock w + 35.
Proof.
  intros E. apply single_post_cases in E
    as [(e & [=] & _)|(data & post & evs & w2 & _ & _ & _ & _ & Esend & Hd & ->)].
  destruct (send_post_rec_bounded (Z.to_nat 3) post (CHANNEL_ID w) 5
              (chosen category data_file post w)) as (evs' & w2' & E' & Hd' & Hp & _).
  change (send_post_rec _ _ _ _) with (send_post_default post (CHANNEL_ID w)) in E'.
  rewrite Esend in E'. injection E' as <-.
  assert (evs' = evs) as ->.
  { pose proof (dispatched_trace _ _ _ Hd) as H1.
    rewrite (dispatched_trace _ _ _ Hd') in H1. by apply app_inv_head in H1. }
  apply slept_prefix_default in Hp. simpl.
  rewrite (dispatched_clock _ _ _ Hd). simpl. lia.
Qed.

Lemma minute_moves t d :
  60 ≤ d ≤ 95 → datetime_minute (t + d) ≠ datetime_minute t.
Proof. unfold datetime_minute. intros Hd. Z.div_mod_to_equations. lia. Qed.

Lemma poll_outside_minute cond m post lw r lw' :
  poll cond m post lw = (r, lw') →
  cond (clock (world lw)) = false →
  poll_inert lw lw' ∧ (r = Ok tt → clock (world lw') = clock (world lw) + 60).
Proof.
  intros E Hcond. apply poll_cases in E as [(_ & -> & ->)|[(_ & _ & -> & ->)|(_ & Ht & _)]].
  - split; [done|discriminate].
  - split; [done|]. intros _. simpl. lia.
  - simpl in Ht. congruence.
Qed.

Lemma poll_never_twice cond m category data_file lw lw1 :
  poll cond m (single_post category data_file) lw = (Ok tt, lw1) →
  cond (clock (world lw)) = true →
  datetime_minute (clock (world lw1)) ≠ datetime_minute (clock (world lw)).
Proof.
  intros E Hcond.
  apply poll_cases in E as [(_ & [=] & _)|[(_ & Hf & _)|(_ & _ & ew & w1 & Hpost & H)]].
  { simpl in Hf. congruence. }
  destruct ew as [[]|e]; destruct H as [[=] ->].
  apply single_post_clock in Hpost. simpl.
  replace (clock w1 + Z.max 0 60)
    with (clock (world lw) + (clock w1 - clock (world lw) + 60)) by lia.
  apply minute_moves. lia.
Qed.

(** X20: the loops post only in their minute.  A round of
    [start_morning_post] whose clock is not at 07:00, and a round of
    [start_weekend_post] whose clock is not at 19:45 of a Friday, leave
    the tracker, the persistence file and the client alone and log
    nothing; when the clock can be read they just sleep 60 seconds. *)
Theorem polls_post_only_in_their_minute lw r lw' :
  (morning_poll lw = (r, lw') →
   ¬ morning_minute (clock (world lw)) →
   poll_inert lw lw' ∧ (r = Ok tt → clock (world lw') = clock (world lw) + 60)) ∧
  (weekend_poll lw = (r, lw') →
   ¬ weekend_minute (clock (world lw)) →
   poll_inert lw lw' ∧ (r = Ok tt → clock (world lw') = clock (world lw) + 60)).
Proof.
  split; intros E Hnot.
  - rewrite morning_poll_poll in E. eapply poll_outside_minute; [exact E|].
    simpl. apply not_true_is_false. by rewrite morning_minute_cond.
  - rewrite weekend_poll_poll in E. eapply poll_outside_minute; [exact E|].
    simpl. apply not_true_is_false. by rewrite weekend_minute_cond.
Qed.

Lemma polls_post_only_in_their_minute_witness :
  (poll_inert (mkLoopWorld world7 []) (snd (morning_poll (mkLoopWorld world7 []))) ∧
   (fst (morning_poll (mkLoopWorld world7 [])) = Ok tt →
    clock (world (snd (morning_poll (mkLoopWorld world7 [])))) =
      clock (world (mkLoopWorld world7 [])) + 60)) ∧
  (poll_inert (mkLoopWorld world6 []) (snd (weekend_poll (mkLoopWorld world6 []))) ∧
   (fst (weekend_poll (mkLoopWorld world6 [])) = Ok tt →
    clock (world (snd (weekend_poll (mkLoopWorld world6 [])))) =
      clock (world (mkLoopWorld world6 [])) + 60)).
Proof.
  split.
  - apply (proj1 (polls_post_only_in_their_minute (mkLoopWorld world7 [])
             (fst (morning_poll (mkLoopWorld world7 [])))
             (snd (morning_poll (mkLoopWorld world7 []))))).
    + by destruct (morning_poll (mkLoopWorld world7 [])).
    + intros [H _]. vm_compute in H. discriminate.
  - apply (proj2 (polls_post_only_in_their_minute (mkLoopWorld world6 [])
             (fst (weekend_poll (mkLoopWorld world6 [])))
             (snd (weekend_poll (mkLoopWorld world6 []))))).
    + by destruct (weekend_poll (mkLoopWorld world6 [])).
    + intros (_ & H & _). vm_compute in H. discriminate.
Defined.

(** X21: no minute is served twice.  After a round of
    [start_morning_post] or [start_weekend_post] that posted and returned,
    the clock stands in a later minute, even if the send went through all
    its retries: the next round does not post again. *)
Theorem polls_never_post_twice lw lw1 :
  (morning_poll lw = (Ok tt, lw1) →
   morning_minute (clock (world lw)) →
   ¬ morning_minute (clock (world lw1))) ∧
  (weekend_poll lw = (Ok tt, lw1) →
   weekend_minute (clock (world lw)) →
   ¬ weekend_minute (clock (world lw1))).
Proof.
  split; intros E Hin Hagain.
  - rewrite morning_poll_poll in E.
    eapply poll_never_twice; [exact E|by apply morning_minute_cond|].
    destruct Hin as [_ ->]. by destruct Hagain as [_ ->].
  - rewrite weekend_poll_poll in E.
    eapply poll_never_twice; [exact E|by apply weekend_minute_cond|].
    destruct Hin as (_ & _ & ->). by destruct Hagain as (_ & _ & ->).
Qed.

Lemma polls_never_post_twice_witness :
  ¬ morning_minute (clock (world (snd (morning_poll (mkLoopWorld world6 []))))) ∧
  ¬ weekend_minute (clock (world (snd (weekend_poll (mkLoopWorld world7 []))))).
Proof.
  split.
  - apply (proj1 (polls_never_post_twice (mkLoopWorld world6 [])
                    (snd (morning_poll (mkLoopWorld world6 []))))).
    + vm_compute. reflexivity.
    + split; reflexivity.
  - apply (proj2 (polls_never_post_twice (mkLoopWorld world7 [])
                    (snd (weekend_poll (mkLoopWorld world7 []))))).
    + vm_compute. reflexivity.
    + split_and!; reflexivity.
Defined.

(** X22: the polling loops have no handler either.  When the clock is in
    the minute of the loop and the post raises, the loop ends with that
    exception in that round, after its own log line, without sleeping. *)
Theorem polls_end_with_the_post iterations lw e w1 :
  datetime_valid (clock (world lw)) = true →
  (morning_minute (clock (world lw)) →
   morning_post (world lw) = (Raise e, w1) →
   start_morning_post (S iterations) lw =
   (Raise e, mkLoopWorld w1
      (loop_log lw ++ [(length (trace (world lw)), SendingMorningPost)]))) ∧
  (weekend_minute (clock (world lw)) →
   weekend_post (world lw) = (Raise e, w1) →
   start_weekend_post (S iterations) lw =
   (Raise e, mkLoopWorld w1
      (loop_log lw ++ [(length (trace (world lw)), SendingWeekendPost)]))).
Proof.
  intros Hc. split; intros Hin Hpost.
  - apply morning_minute_cond in Hin.
    unfold start_morning_post. simpl. unfold morning_poll, loop_bind, lift, datetime_now.
    run. rewrite Hc. simpl. rewrite Hin. unfold loop_info. simpl. by rewrite Hpost.
  - apply weekend_minute_cond in Hin.
    unfold start_weekend_post. simpl. unfold weekend_poll, loop_bind, lift, datetime_now.
    run. rewrite Hc. simpl. rewrite Hin. unfold loop_info. simpl. by rewrite Hpost.
Qed.

Lemma polls_end_with_the_post_witness :
  start_morning_post 3 (mkLoopWorld world11 []) =
  (Raise IndexError,
   mkLoopWorld (set_trace [EvInfo (LoadingData "morning_data.json")] world11)
     [(0%nat, SendingMorningPost)]).
Proof.
  apply (proj1 (polls_end_with_the_post 2 (mkLoopWorld world11 []) IndexError
                  (set_trace [EvInfo (LoadingData "morning_data.json")] world11)
                  eq_refl)).
  - split; reflexivity.
  - vm_compute. reflexivity.
Defined.
